(** * search_agent: a shallow embedding of the web-search chat agent

    The development follows [search_agent.py] function by function.

    - Text is modelled by [string]; a character is a code point below 256,
      so [str.lower], [str.strip] and [int] are the restrictions of the
      Python built-ins to that range.
    - The module-level list [assistant_convo] and the calls that leave the
      process (the model, the search page, the page download) are threaded
      through an explicit state: the conversation and the trace of outbound
      calls made so far.
    - The outside world is an [env]: what each outbound call answers, given
      the number of calls made before it and the request.  [None] stands for
      a raised exception.
    - Logging and terminal output are not modelled. *)

From Stdlib Require Import String Ascii List ZArith NArith Bool Lia Arith Sorted.
Import ListNotations.
Open Scope string_scope.
Open Scope list_scope.
Open Scope nat_scope.

Set Implicit Arguments.

(** ** Python text primitives *)

Module PyStr.

Definition dq : ascii := ascii_of_nat 34.
Definition nl : ascii := ascii_of_nat 10.

Definition code (c : ascii) : nat := nat_of_ascii c.

Definition between (lo hi n : nat) : bool := (lo <=? n) && (n <=? hi).

(** [str.lower] on one code point: A-Z, and the Latin-1 capitals
    U+00C0..U+00DE without the multiplication sign U+00D7. *)
Definition lower_char (c : ascii) : ascii :=
  let n := code c in
  if between 65 90 n || between 192 214 n || between 216 222 n
  then ascii_of_nat (n + 32) else c.

Fixpoint lower (s : string) : string :=
  match s with
  | EmptyString => EmptyString
  | String c t => String (lower_char c) (lower t)
  end.

Fixpoint starts_with (p s : string) : bool :=
  match p, s with
  | EmptyString, _ => true
  | String _ _, EmptyString => false
  | String a p', String b s' => Ascii.eqb a b && starts_with p' s'
  end.

(** [needle in hay] *)
Fixpoint contains (needle hay : string) : bool :=
  starts_with needle hay ||
  match hay with
  | EmptyString => false
  | String _ t => contains needle t
  end.

(** [str.isspace] on one code point. *)
Definition isspace (c : ascii) : bool :=
  let n := code c in
  between 9 13 n || between 28 32 n || (n =? 133) || (n =? 160).

Fixpoint lstrip (s : string) : string :=
  match s with
  | EmptyString => EmptyString
  | String c t => if isspace c then lstrip t else s
  end.

Fixpoint rstrip (s : string) : string :=
  match s with
  | EmptyString => EmptyString
  | String c t =>
      match rstrip t with
      | EmptyString => if isspace c then EmptyString else String c EmptyString
      | t' => String c t'
      end
  end.

Definition strip (s : string) : string := rstrip (lstrip s).

(** [s.replace(c, '')] for a one-character [c]. *)
Fixpoint remove_char (x : ascii) (s : string) : string :=
  match s with
  | EmptyString => EmptyString
  | String c t => if Ascii.eqb c x then remove_char x t else String c (remove_char x t)
  end.

Fixpoint mem_char (x : ascii) (s : string) : bool :=
  match s with
  | EmptyString => false
  | String c t => Ascii.eqb c x || mem_char x t
  end.

Definition is_empty (s : string) : bool :=
  match s with EmptyString => true | _ => false end.

Definition digit_val (c : ascii) : option Z :=
  let n := code c in
  if between 48 57 n then Some (Z.of_nat (n - 48)) else None.

(** The digits of a decimal literal after its first digit; [acc] is the
    value read so far, [after_us] tells that the previous character was an
    underscore, which only a digit may follow. *)
Fixpoint int_digits (acc : Z) (after_us : bool) (s : string) : option Z :=
  match s with
  | EmptyString => if after_us then None else Some acc
  | String c t =>
      match digit_val c with
      | Some d => int_digits (10 * acc + d) false t
      | None =>
          if Ascii.eqb c "_" && negb after_us then int_digits acc true t
          else None
      end
  end.

Definition int_unsigned (s : string) : option Z :=
  match s with
  | EmptyString => None
  | String c t =>
      match digit_val c with
      | Some d => int_digits d false t
      | None => None
      end
  end.

(** [int(s)] for a string: surrounding white space is dropped, one sign
    is allowed, single underscores may separate digits.  [None] is
    [ValueError].  The interpreter's limit on the number of digits of a
    literal is not modelled. *)
Definition int (s : string) : option Z :=
  match strip s with
  | String "-" t => option_map Z.opp (int_unsigned t)
  | String "+" t => int_unsigned t
  | t => int_unsigned t
  end.

End PyStr.

(** ** Python list primitives *)

Module PyList.

Section Ops.
Context {A : Type}.

Definition len (l : list A) : Z := Z.of_nat (length l).

(** The position a subscript denotes: negative subscripts count from
    the end; [None] is [IndexError]. *)
Definition position (l : list A) (i : Z) : option nat :=
  let j := (if i <? 0 then i + len l else i)%Z in
  if ((0 <=? j) && (j <? len l))%Z then Some (Z.to_nat j) else None.

(** [l[i]] *)
Definition index (l : list A) (i : Z) : option A :=
  match position l i with
  | Some k => nth_error l k
  | None => None
  end.

Definition remove_at (k : nat) (l : list A) : list A :=
  firstn k l ++ skipn (S k) l.

(** [l.pop(i)], as the list that is left. *)
Definition pop (l : list A) (i : Z) : option (list A) :=
  match position l i with
  | Some k => Some (remove_at k l)
  | None => None
  end.

Definition is_empty (l : list A) : bool :=
  match l with [] => true | _ => false end.
End Ops.

End PyList.

(** ** Data model *)

(** A chat message, a dict with the keys ['role'] and ['content']. *)
Record message := { role : string; content : string }.

(** A search result, a dict with the keys ['id'], ['link'] and
    ['search_description']. *)
Record candidate := { id : nat; link : string; search_description : string }.

(** One [div.result] block of the result page as the HTML parser shows it:
    the [a.result__a] tag if there is one, with its [href] attribute if it
    has one, and the text of the [a.result__snippet] tag if there is one. *)
Record result_block := {
  title_href : option (option string);
  snippet_text : option string
}.

(** ** sys_msgs.py *)

Module sys_msgs.
Local Open Scope string_scope.

Definition Q : string := String PyStr.dq EmptyString.
Definition NL : string := String PyStr.nl EmptyString.

Definition assistant_agent : message :=
  {| role := "system";
     content :=
       "You are an AI assistant that helps users by analyzing " ++
       "search results and user queries. When a user asks a " ++
       "question, search results will be provided before their " ++
       "message. Your task is to carefully analyze both the search " ++
       "results and the user's question, extracting relevant " ++
       "information to provide comprehensive, accurate and " ++
       "intelligent responses. Focus on delivering high-quality " ++
       "answers that combine the search data with clear " ++
       "explanations. Be precise, helpful, and aim to exceed user " ++
       "expectations with every response." |}.

Definition should_search_decision_agent : message :=
  {| role := "system";
     content :=
       "You are a decision-making system. Your task is to analyze " ++
       "the last user message in a conversation and determine if " ++
       "searching Google would help provide a better response. " ++
       "Evaluate if: 1) The existing conversation already contains " ++
       "sufficient context, or 2) A Google search would not " ++
       "meaningfully improve the response quality. Respond only " ++
       "with " ++ Q ++ "True" ++ Q ++
       " if a Google search would be helpful and " ++ Q ++ "False" ++ Q ++
       " if it would not. Do not provide any explanation - only " ++
       "output " ++ Q ++ "True" ++ Q ++ " or " ++ Q ++ "False" ++ Q ++
       ". Base your decision on whether a knowledgeable human would " ++
       "need to search online to properly address the query." |}.

Definition search_query_generator_agent : message :=
  {| role := "system";
     content :=
       "You are a search query generator optimized for DuckDuckGo " ++
       "searches. Your task is to analyze user questions and " ++
       "generate highly effective search queries. When given a user " ++
       "question, create a search query that will maximize relevant " ++
       "results on DuckDuckGo. Use DuckDuckGo's search syntax " ++
       "including: " ++ NL ++ "- Double quotes (" ++ Q ++ Q ++
       ") for exact phrase matches" ++ NL ++
       "- site: operator to restrict to specific domains" ++ NL ++
       "- intitle: to search page titles" ++ NL ++
       "- filetype: for specific file types" ++ NL ++
       "Keep queries focused and under 100 characters. Remove " ++
       "unnecessary words. Include key technical terms. Prioritize " ++
       "authoritative sources. Generate only the optimized query " ++
       "string - no explanations or additional text. The query will " ++
       "be used directly in DuckDuckGo's search URL." |}.

Definition best_search_result_selector_agent : message :=
  {| role := "system";
     content :=
       "You are not an AI assistant that responds to a user. You " ++
       "are an AI model trained to select the best search result " ++
       "out of a list of ten results. The best search result is the " ++
       "link an expert human search engine user would click first " ++
       "to find the data to respond to a USER_PROMPT after " ++
       "searching DuckDuckGo for the SEARCH_QUERY. " ++ NL ++
       "All user messages you receive in this conversation will " ++
       "have the format of: " ++ NL ++ "    SEARCH_RESULTS: [{},{},{}] " ++
       NL ++ "    USER_PROMPT: " ++ Q ++
       "this will be an actual prompt to a web search enabled AI " ++
       "assistant" ++ Q ++ " " ++ NL ++ "    SEARCH_QUERY: " ++ Q ++
       "search query ran to get the above 10 links" ++ Q ++ " " ++ NL ++
       NL ++
       "You must select the index from the 0 indexed SEARCH_RESULTS " ++
       "list and only respond with the index of the best search " ++
       "result to check for the data the AI assistant needs to " ++
       "respond. That means your responses to this conversation " ++
       "should always be 1 token, being and integer between 0-9." |}.

Definition page_content_validator_agent : message :=
  {| role := "system";
     content :=
       "You are not an AI assistant that responds to a user. You " ++
       "are an AI model designed to analyze data scraped from a web " ++
       "pages text to assist an actual AI assistant in responding " ++
       "correctly with up to date information. Consider the " ++
       "USER_PROMPT that was sent to the actual AI assistant & " ++
       "analyze the web PAGE_TEXT to see if it does contain the " ++
       "data needed to construct an intelligent, correct response. " ++
       "This web PAGE_TEXT was retrieved from a search engine using " ++
       "the SEARCH_QUERY that is also attached to user messages in " ++
       "this conversation. All user messages in this conversation " ++
       "will have the format of: " ++ NL ++ "    PAGE_TEXT: " ++ Q ++
       "entire page text from the best search result based off the " ++
       "search snippet." ++ Q ++ " " ++ NL ++ "    USER_PROMPT: " ++ Q ++
       "the prompt sent to an actual web search enabled AI " ++
       "assistant." ++ Q ++ " " ++ NL ++ "    SEARCH_QUERY: " ++ Q ++
       "the search query that was used to find data determined " ++
       "necessary for the assistant to respond correctly and " ++
       "usefully." ++ Q ++ " " ++ NL ++
       "You must determine whether the PAGE_TEXT actually contains " ++
       "reliable and necessary data for the AI assistant to " ++
       "respond. You only have two possible responses to user " ++
       "messages in this conversation: " ++ Q ++ "True" ++ Q ++ " or " ++
       Q ++ "False" ++ Q ++
       ". You never generate more than one token and it is always " ++
       "either " ++ Q ++ "True" ++ Q ++ " or " ++ Q ++ "False" ++ Q ++
       " with True indicating that page text does indeed contain " ++
       "the reliable data for the AI assistant to use as context to " ++
       "respond. Respond " ++ Q ++ "False" ++ Q ++
       " if the PAGE_TEXT is not useful to answering the " ++ "USER_PROMPT." |}.

Definition SEARCH_FAILURE_PROMPT_TEMPLATE (prompt : string) : string :=
  "USER PROMPT: " ++ NL ++ prompt ++
  " " ++ NL ++ NL ++ "FAILED SEARCH: " ++ NL ++
  "The AI search model was unable to extract any reliable " ++
  "data. Explain that and ask if the user would like you to " ++
  "search again or respond without web search context. Do not " ++
  "respond if a search was needed and you are getting this " ++
  "message with anything but the above request of how the user " ++
  "would like to proceed".

End sys_msgs.

(** ** The outside world and the program state *)

(** An outbound call, with its request. *)
Inductive event :=
| Chat (messages : list message)        (* ollama.chat(model, messages) *)
| ChatStream (messages : list message)  (* ollama.chat(model, messages, stream=True) *)
| HttpGet (url : string)                (* requests.get(url, headers, timeout) *)
| FetchUrl (page_link : string).        (* trafilatura.fetch_url(page_link) *)

(** What the world answers.  The first argument of a call is the number of
    outbound calls made before it, so that two calls with the same request
    may be answered differently.  [None] is a raised exception.
    - [chat] is [ollama.chat(...)['message']['content']];
    - [chat_stream] is the list of chunk contents of a streamed reply,
      consumed to its end;
    - [get_results] is the request for the result page, its status check
      and [soup.find_all('div', class_='result')];
    - [fetch_url] and [extract] are the two trafilatura functions, each of
      which may also return [None];
    - [repr] is the text that an f-string gives for the list of results. *)
Record env := {
  chat : nat -> list message -> option string;
  chat_stream : nat -> list message -> option (list string);
  get_results : nat -> string -> option (list result_block);
  fetch_url : nat -> string -> option (option string);
  extract : string -> option (option string);
  repr : list candidate -> string
}.

Record state := { convo : list message; trace : list event }.

Inductive exn := IndexError | KeyError | ValueError | CallError.

Inductive outcome (A : Type) :=
| Ok (a : A)
| Raise (x : exn).
Arguments Ok {A} a.
Arguments Raise {A} x.

(** A computation over the state that returns or raises. *)
Definition M (A : Type) : Type := state -> outcome A * state.

Definition ret {A} (a : A) : M A := fun st => (Ok a, st).

Definition raise {A} (x : exn) : M A := fun st => (Raise x, st).

Definition bind {A B} (m : M A) (k : A -> M B) : M B :=
  fun st =>
    match m st with
    | (Ok a, st') => k a st'
    | (Raise x, st') => (Raise x, st')
    end.

(** [try: m  except Exception: h] *)
Definition try_except {A} (m : M A) (h : M A) : M A :=
  fun st =>
    match m st with
    | (Ok a, st') => (Ok a, st')
    | (Raise _, st') => h st'
    end.

Definition lift {A} (o : outcome A) : M A := fun st => (o, st).

Declare Scope py_scope.
Delimit Scope py_scope with py.
Notation "x <- m ;; k" := (bind m (fun x => k))
  (at level 61, m at next level, right associativity) : py_scope.
Notation "m ;;; k" := (bind m (fun _ => k))
  (at level 61, right associativity) : py_scope.
Open Scope py_scope.

Definition user (text : string) : message := {| role := "user"; content := text |}.

Definition get_convo : M (list message) := fun st => (Ok (convo st), st).

(** [assistant_convo[-1]['content']] *)
Definition convo_last_content : M string :=
  fun st =>
    match PyList.index (convo st) (-1) with
    | Some m => (Ok (content m), st)
    | None => (Raise IndexError, st)
    end.

(** [assistant_convo.append(m)] *)
Definition convo_append (m : message) : M unit :=
  fun st => (Ok tt, {| convo := convo st ++ [m]; trace := trace st |}).

(** [assistant_convo.pop()] *)
Definition convo_pop : M unit :=
  fun st =>
    match PyList.pop (convo st) (-1) with
    | Some c => (Ok tt, {| convo := c; trace := trace st |})
    | None => (Raise IndexError, st)
    end.

Definition emit (ev : event) (st : state) : state :=
  {| convo := convo st; trace := trace st ++ [ev] |}.

Definition of_answer {A} (o : option A) : outcome A :=
  match o with
  | Some a => Ok a
  | None => Raise CallError
  end.

Section Agent.

Variable E : env.

Definition call_chat (messages : list message) : M string :=
  fun st => (of_answer (chat E (length (trace st)) messages),
             emit (Chat messages) st).

Definition call_chat_stream (messages : list message) : M (list string) :=
  fun st => (of_answer (chat_stream E (length (trace st)) messages),
             emit (ChatStream messages) st).

Definition call_get_results (url : string) : M (list result_block) :=
  fun st => (of_answer (get_results E (length (trace st)) url),
             emit (HttpGet url) st).

Definition call_fetch_url (page_link : string) : M (option string) :=
  fun st => (of_answer (fetch_url E (length (trace st)) page_link),
             emit (FetchUrl page_link) st).

(** *** check_search_or_not *)
Definition check_search_or_not : M bool :=
  let sys_msg := sys_msgs.should_search_decision_agent in
  try_except
    (last <- convo_last_content ;;
     content <- call_chat [sys_msg; user last] ;;
     ret (PyStr.contains "true" (PyStr.lower content)))
    (ret false).

(** *** query_generator *)
Definition query_generator : M string :=
  let sys_msg := sys_msgs.search_query_generator_agent in
  last <- convo_last_content ;;
  let query :=
    ("CREATE A SEARCH QUERY FOR THE FOLLOWING QUESTION: " ++ sys_msgs.NL ++ last)%string in
  try_except
    (content <- call_chat [sys_msg; user query] ;;
     ret content)
    (convo_last_content).

(** *** search_duckduckgo *)

(** The loop over the enumerated result blocks; [i] is the enumeration
    index of the first block of [blocks]. *)
Fixpoint collect_results (i : nat) (blocks : list result_block)
         (results : list candidate) : outcome (list candidate) :=
  match blocks with
  | [] => Ok results
  | result :: rest =>
      if 10 <=? i then Ok results
      else
        match title_href result with
        | None => collect_results (S i) rest results
        | Some None => Raise KeyError
        | Some (Some href) =>
            let snippet :=
              match snippet_text result with
              | Some text => PyStr.strip text
              | None => "No description available"
              end in
            collect_results (S i) rest
              (results ++ [{| id := i; link := href; search_description := snippet |}])
        end
  end.

Definition search_url (search_query : string) : string :=
  ("https://duckduckgo.com/html/?q=" ++ search_query)%string.

Definition search_duckduckgo (search_query : string) : M (list candidate) :=
  try_except
    (blocks <- call_get_results (search_url search_query) ;;
     lift (collect_results 0 blocks []))
    (ret []).

(** *** best_search_results *)

(** One pass through the body of the [try] of the selection loop. *)
Definition select_once (s_results : list candidate) (best_msg : string) : M Z :=
  let sys_msg := sys_msgs.best_search_result_selector_agent in
  content <- call_chat [sys_msg; user best_msg] ;;
  match PyStr.int content with
  | Some index => ret (Z.min index (PyList.len s_results - 1))
  | None => raise ValueError
  end.

(** [for attempt in range(n)] around it, and the [return 0] after it. *)
Fixpoint select_retry (n : nat) (s_results : list candidate) (best_msg : string) : M Z :=
  match n with
  | O => ret 0%Z
  | S n' => try_except (select_once s_results best_msg)
                       (select_retry n' s_results best_msg)
  end.

Definition best_msg_of (s_results : list candidate) (last query : string) : string :=
  ("SEARCH_RESULTS: " ++ repr E s_results ++ " " ++ sys_msgs.NL ++
   "USER_PROMPT: " ++ last ++ " " ++ sys_msgs.NL ++
   "SEARCH_QUERY: " ++ query)%string.

Definition best_search_results (s_results : list candidate) (query : string) : M Z :=
  if PyList.is_empty s_results then ret 0%Z
  else
    last <- convo_last_content ;;
    select_retry 3 s_results (best_msg_of s_results last query).

(** *** scrape_page *)
Definition scrape_page (page_link : string) : M (option string) :=
  try_except
    (downloaded <- call_fetch_url page_link ;;
     match downloaded with
     | None => ret None
     | Some d =>
         if PyStr.is_empty d then ret None
         else lift (of_answer (extract E d))
     end)
    (ret None).

(** *** contain_data_needed *)
Definition page_content_msg_of (search_content last query : string) : string :=
  ("PAGE_TEXT: " ++ search_content ++ " " ++ sys_msgs.NL ++
   "USER_PROMPT: " ++ last ++ " " ++ sys_msgs.NL ++
   "SEARCH_QUERY: " ++ query)%string.

Definition contain_data_needed (search_content query : string) : M bool :=
  let sys_msg := sys_msgs.page_content_validator_agent in
  last <- convo_last_content ;;
  let page_content_msg := page_content_msg_of search_content last query in
  try_except
    (content <- call_chat [sys_msg; user page_content_msg] ;;
     ret (PyStr.contains "true" (PyStr.lower content)))
    (ret false).

(** *** ai_search *)

(** How one pass through the body of the retrieval loop ends: at the
    [return page_text], at the [continue] of the index check, or at the
    end of the body, after [search_results.pop(best_result_index)]. *)
Inductive iter :=
| Return (page_text : string)
| Continue
| Popped (search_results : list candidate).

Definition truthy (page_text : option string) : option string :=
  match page_text with
  | Some t => if PyStr.is_empty t then None else Some t
  | None => None
  end.

Definition attempt_body (search_results : list candidate) (search_query : string) : M iter :=
  best_result_index <- best_search_results search_results search_query ;;
  if (PyList.len search_results <=? best_result_index)%Z then ret Continue
  else
    result <- lift (match PyList.index search_results best_result_index with
                    | Some r => Ok r
                    | None => Raise IndexError
                    end) ;;
    page_text <- scrape_page (link result) ;;
    let pop : M iter :=
      match PyList.pop search_results best_result_index with
      | Some rest => ret (Popped rest)
      | None => raise IndexError
      end in
    match truthy page_text with
    | Some t =>
        relevant <- contain_data_needed t search_query ;;
        if relevant : bool then ret (Return t) else pop
    | None => pop
    end.

(** [for attempt in range(...)] over the loop body; [None] when the loop
    runs out. *)
Fixpoint attempts (range : list nat) (search_results : list candidate)
         (search_query : string) : M (option string) :=
  match range with
  | [] => ret None
  | _ :: range' =>
      r <- attempt_body search_results search_query ;;
      match r with
      | Return page_text => ret (Some page_text)
      | Continue => attempts range' search_results search_query
      | Popped rest => attempts range' rest search_query
      end
  end.

Definition max_attempts : nat := 5.

Definition ai_search : M (option string) :=
  try_except
    (generated <- query_generator ;;
     let search_query := PyStr.remove_char PyStr.dq generated in
     search_results <- search_duckduckgo search_query ;;
     if PyList.is_empty search_results then ret None
     else attempts (seq 0 max_attempts) search_results search_query)
    (ret None).

(** *** stream_assistant_response *)
Definition stream_assistant_response : M unit :=
  try_except
    (messages <- get_convo ;;
     chunks <- call_chat_stream messages ;;
     let complete_response := String.concat "" chunks in
     convo_append {| role := "assistant"; content := complete_response |})
    (ret tt).

(** *** main *)

(** The body of the [try] of the interactive loop, for one line of input. *)
Definition turn_body (prompt : string) : M unit :=
  if PyStr.is_empty (PyStr.strip prompt) then ret tt
  else
    convo_append (user prompt) ;;;
    search <- check_search_or_not ;;
    (if search : bool then
       context <- ai_search ;;
       convo_pop ;;;
       let prompt' :=
         match truthy context with
         | Some c =>
             ("SEARCH_RESULT: " ++ c ++ " " ++ sys_msgs.NL ++ "USER_PROMPT: " ++ prompt)%string
         | None => sys_msgs.SEARCH_FAILURE_PROMPT_TEMPLATE prompt
         end in
       convo_append (user prompt')
     else ret tt) ;;;
    stream_assistant_response.

(** One round of the loop: an exception that reaches the loop is logged
    and the loop goes on. *)
Definition turn (prompt : string) (st : state) : state :=
  snd (turn_body prompt st).

(** The loop over the lines that are typed. *)
Fixpoint main (lines : list string) (st : state) : state :=
  match lines with
  | [] => st
  | prompt :: rest => main rest (turn prompt st)
  end.

(** *** Observing the retrieval loop *)

(** One executed pass through the loop body: the value of [attempt], the
    candidates it started from, and how it ended. *)
Record pass := {
  p_attempt : nat;
  p_before : list candidate;
  p_end : outcome iter
}.

(** The passes that [attempts] executes, in order. *)
Fixpoint passes (range : list nat) (search_results : list candidate)
         (search_query : string) (st : state) : list pass :=
  match range with
  | [] => []
  | attempt :: range' =>
      let (r, st') := attempt_body search_results search_query st in
      {| p_attempt := attempt; p_before := search_results; p_end := r |} ::
      match r with
      | Ok Continue => passes range' search_results search_query st'
      | Ok (Popped rest) => passes range' rest search_query st'
      | _ => []
      end
  end.

(** The candidates a pass leaves for the next one. *)
Definition p_after (p : pass) : list candidate :=
  match p_end p with
  | Ok (Popped rest) => rest
  | _ => p_before p
  end.

End Agent.

(** The conversation at start-up. *)
Definition initial_state : state :=
  {| convo := [sys_msgs.assistant_agent]; trace := [] |}.

(** * Statements *)

(** ** Notions used in the statements *)

(** A line of white space only. *)
Fixpoint blank (s : string) : bool :=
  match s with
  | EmptyString => true
  | String c t => PyStr.isspace c && blank t
  end.

(** The reply holds the letters t, r, u, e in a row, each in either case. *)
Definition says_true (text : string) : Prop :=
  exists pre c1 c2 c3 c4 post,
    text = (pre ++ String c1 (String c2 (String c3 (String c4 post))))%string /\
    (c1 = "t"%char \/ c1 = "T"%char) /\
    (c2 = "r"%char \/ c2 = "R"%char) /\
    (c3 = "u"%char \/ c3 = "U"%char) /\
    (c4 = "e"%char \/ c4 = "E"%char).

(** How a judge reads the answer of its model call. *)
Definition judged (answer : option string) (b : bool) : Prop :=
  b = true <-> exists reply, answer = Some reply /\ says_true reply.

(** The request of [query_generator] when the last message reads [last]. *)
Definition query_request (last : string) : list message :=
  [sys_msgs.search_query_generator_agent;
   user ("CREATE A SEARCH QUERY FOR THE FOLLOWING QUESTION: " ++ sys_msgs.NL ++ last)%string].

(** What [query_generator] makes of the answer to its request. *)
Definition query_text (answer : option string) (last : string) : string :=
  match answer with
  | Some reply => reply
  | None => last
  end.

Definition model_calls (t : list event) : nat :=
  length (filter (fun ev => match ev with
                            | Chat _ | ChatStream _ => true
                            | _ => false
                            end) t).

(** What every executed pass satisfies. *)
Definition pass_ok (cs : list candidate) (p : pass) : Prop :=
  length (p_before p) <= length cs /\
  match p_end p with
  | Ok (Return t) => t <> EmptyString
  | Ok Continue => p_before p = []
  | Ok (Popped rest) => length rest + 1 = length (p_before p)
  | Raise _ => True
  end.

(** The loop result, read off the passes: the value of the last pass
    when it returned or raised, [None] when the loop ran out. *)
Fixpoint loop_result (ps : list pass) : outcome (option string) :=
  match ps with
  | [] => Ok None
  | p :: ps' =>
      match p_end p with
      | Ok (Return t) => Ok (Some t)
      | Raise x => Raise x
      | _ => loop_result ps'
      end
  end.

(** How a pass ended, without the values. *)
Inductive ending := Found | Skipped | Removed | Raised.

Definition p_ending (p : pass) : ending :=
  match p_end p with
  | Ok (Return _) => Found
  | Ok Continue => Skipped
  | Ok (Popped _) => Removed
  | Raise _ => Raised
  end.

Definition linkless (b : result_block) : bool :=
  match title_href b with
  | None => true
  | Some _ => false
  end.

(** The number of blocks without a title link among the first [n]. *)
Definition skipped_before (n : nat) (blocks : list result_block) : nat :=
  length (filter linkless (firstn n blocks)).

(** A relation between the state before and after that holds when nothing
    happens, composes, and holds across an outbound call. *)
Record frame := {
  rel :> state -> state -> Prop;
  rel_refl : forall st, rel st st;
  rel_trans : forall st1 st2 st3, rel st1 st2 -> rel st2 st3 -> rel st1 st3;
  rel_emit : forall ev st, rel st (emit ev st)
}.

Definition keeps (F : frame) {A} (m : M A) : Prop :=
  forall st, F st (snd (m st)).

(** ** Notions used in the further properties *)

(** The state after the outbound calls [evs]. *)
Definition calls (st : state) (evs : list event) : state :=
  {| convo := convo st; trace := trace st ++ evs |}.

(** The requests for the result page and the page downloads of a trace. *)
Definition page_requests (t : list event) : nat :=
  length (filter (fun ev => match ev with HttpGet _ => true | _ => false end) t).

Definition downloads (t : list event) : nat :=
  length (filter (fun ev => match ev with FetchUrl _ => true | _ => false end) t).

(** From [st] to [st'] the conversation is kept and the trace has grown by
    at most [c] model calls, [g] result page requests and [f] downloads. *)
Definition spends (c g f : nat) (st st' : state) : Prop :=
  convo st' = convo st /\
  exists evs,
    trace st' = trace st ++ evs /\
    model_calls evs <= c /\ page_requests evs <= g /\ downloads evs <= f.

Definition costs (c g f : nat) {A} (m : M A) : Prop :=
  forall st, spends c g f st (snd (m st)).

(** The request of [best_search_results]. *)
Definition selection_request (E : env) (s_results : list candidate)
           (last query : string) : list message :=
  [sys_msgs.best_search_result_selector_agent;
   user (best_msg_of E s_results last query)].


(** The candidates that the blocks of a result page give, block by block:
    [i] is the position of the block on the page. *)
Definition candidate_of (ib : nat * result_block) : list candidate :=
  let (i, b) := ib in
  match title_href b with
  | Some (Some href) =>
      [{| id := i; link := href;
          search_description :=
            match snippet_text b with
            | Some text => PyStr.strip text
            | None => "No description available"
            end |}]
  | _ => []
  end.

Definition hrefless (b : result_block) : bool :=
  match title_href b with
  | Some None => true
  | _ => false
  end.

Definition assistant (text : string) : message :=
  {| role := "assistant"; content := text |}.

(** What [scrape_page] makes of the answers of the two library calls. *)
Definition scraped (E : env) (download : option (option string)) : option string :=
  match download with
  | Some (Some d) =>
      if PyStr.is_empty d then None
      else match extract E d with
           | Some r => r
           | None => None
           end
  | _ => None
  end.

(** The user message that [main] builds after a retrieval. *)
Definition search_prompt (context : option string) (prompt : string) : string :=
  match truthy context with
  | Some c =>
      ("SEARCH_RESULT: " ++ c ++ " " ++ sys_msgs.NL ++ "USER_PROMPT: " ++ prompt)%string
  | None => sys_msgs.SEARCH_FAILURE_PROMPT_TEMPLATE prompt
  end.

(** The state after [stream_assistant_response], by the answer to its
    call. *)
Definition replied (E : env) (st : state) : state :=
  match chat_stream E (length (trace st)) (convo st) with
  | Some chunks =>
      {| convo := convo st ++ [assistant (String.concat "" chunks)];
         trace := trace st ++ [ChatStream (convo st)] |}
  | None => calls st [ChatStream (convo st)]
  end.

(** The roles of the messages that the loop appends. *)
Definition chat_role (m : message) : Prop :=
  role m = "user" \/ role m = "assistant".

(** The requests of the two judges. *)
Definition decision_request (last : string) : list message :=
  [sys_msgs.should_search_decision_agent; user last].

Definition validation_request (page last query : string) : list message :=
  [sys_msgs.page_content_validator_agent;
   user (page_content_msg_of page last query)].

(** What a judge makes of the answer to its request. *)
Definition verdict (answer : option string) : bool :=
  match answer with
  | Some reply => PyStr.contains "true" (PyStr.lower reply)
  | None => false
  end.

(** ** Statements in the wording of the specification *)

(** C2, as it is worded: every pass that does not return the page text
    leaves one candidate fewer. *)
Definition every_failed_pass_removes_one (ps : list pass) : Prop :=
  forall p, In p ps ->
            (forall t, p_end p <> Ok (Return t)) ->
            length (p_after p) + 1 = length (p_before p).

(** C3, as it is worded: the loop is over before a fourth pass. *)
Definition no_fourth_pass (ps : list pass) : Prop :=
  forall p, In p ps -> p_attempt p < 3.

(** C4, as it is worded: a pass stopped by the index check does not use up
    a retry, so another pass follows it with the loop variable where it
    was. *)
Definition skip_keeps_retry (ps : list pass) : Prop :=
  forall k p, nth_error ps k = Some p ->
              p_end p = Ok Continue ->
              exists p', nth_error ps (S k) = Some p' /\ p_attempt p' = p_attempt p.

(** The turn with the two steps in the order of the specification's
    wording: the user message is removed first and the retrieval runs
    after that.  Everything else is as in [turn_body]. *)
Definition turn_body_remove_first (E : env) (prompt : string) : M unit :=
  if PyStr.is_empty (PyStr.strip prompt) then ret tt
  else
    convo_append (user prompt) ;;;
    search <- check_search_or_not E ;;
    (if search : bool then
       convo_pop ;;;
       context <- ai_search E ;;
       let prompt' :=
         match truthy context with
         | Some c =>
             ("SEARCH_RESULT: " ++ c ++ " " ++ sys_msgs.NL ++ "USER_PROMPT: " ++ prompt)%string
         | None => sys_msgs.SEARCH_FAILURE_PROMPT_TEMPLATE prompt
         end in
       convo_append (user prompt')
     else ret tt) ;;;
    stream_assistant_response E.

Definition turn_remove_first (E : env) (prompt : string) (st : state) : state :=
  snd (turn_body_remove_first E prompt st).

(** C7, as it is worded: every candidate carries its rank as index. *)
Definition id_is_rank (rs : list candidate) : Prop :=
  forall k c, nth_error rs k = Some c -> id c = k.

(** C9, as it is worded: the run adds no model call to the trace. *)
Definition no_new_model_call (before after : state) : Prop :=
  model_calls (trace after) = model_calls (trace before).

(** ** Assumptions on a run *)

(** Over the conversation [c], every relevance judgment says no. *)
Definition never_relevant (E : env) (c : list message) : Prop :=
  forall page q tr,
    fst (contain_data_needed E page q {| convo := c; trace := tr |}) = Ok false.

(** Over the conversation [c], no selection is a negative number. *)
Definition never_negative (E : env) (c : list message) : Prop :=
  forall cs q tr idx,
    fst (best_search_results E cs q {| convo := c; trace := tr |}) = Ok idx ->
    (0 <= idx)%Z.

(** ** Sample worlds and states *)

(** A world in which the model always gives the same reply, the result
    page has the given blocks, and every page downloads and extracts to the
    given text. *)
Definition fixed_world (reply : string) (blocks : list result_block)
           (page : string) : env :=
  {| chat := fun _ _ => Some reply;
     chat_stream := fun _ _ => Some [reply];
     get_results := fun _ _ => Some blocks;
     fetch_url := fun _ _ => Some (Some page);
     extract := fun d => Some (Some d);
     repr := fun _ => "[...]" |}.

Definition linked (href : string) : result_block :=
  {| title_href := Some (Some href); snippet_text := Some "snippet" |}.

Definition unlinked : result_block :=
  {| title_href := None; snippet_text := None |}.

Definition three_blocks : list result_block :=
  [linked "a"; linked "b"; linked "c"].

Definition three_candidates : list candidate :=
  [ {| id := 0; link := "a"; search_description := "snippet" |};
    {| id := 1; link := "b"; search_description := "snippet" |};
    {| id := 2; link := "c"; search_description := "snippet" |} ].

(** The state in which the functions are called by [main]: the user's
    line has just been appended. *)
Definition asked (prompt : string) : state :=
  {| convo := [sys_msgs.assistant_agent; user prompt]; trace := [] |}.

(** * Properties *)

(** ** Text primitives *)

Module PyStrFacts.
Import PyStr.

Ltac each_ascii c :=
  destruct c as [[|] [|] [|] [|] [|] [|] [|] [|]].

Lemma lower_char_t (c : ascii) :
  lower_char c = "t"%char <-> c = "t"%char \/ c = "T"%char.
Proof.
  split.
  - each_ascii c; vm_compute; intros H; try discriminate H; auto.
  - intros [-> | ->]; reflexivity.
Qed.

Lemma lower_char_r (c : ascii) :
  lower_char c = "r"%char <-> c = "r"%char \/ c = "R"%char.
Proof.
  split.
  - each_ascii c; vm_compute; intros H; try discriminate H; auto.
  - intros [-> | ->]; reflexivity.
Qed.

Lemma lower_char_u (c : ascii) :
  lower_char c = "u"%char <-> c = "u"%char \/ c = "U"%char.
Proof.
  split.
  - each_ascii c; vm_compute; intros H; try discriminate H; auto.
  - intros [-> | ->]; reflexivity.
Qed.

Lemma lower_char_e (c : ascii) :
  lower_char c = "e"%char <-> c = "e"%char \/ c = "E"%char.
Proof.
  split.
  - each_ascii c; vm_compute; intros H; try discriminate H; auto.
  - intros [-> | ->]; reflexivity.
Qed.

(** [needle in lower(hay)] finds the needle at the head of some suffix. *)
Lemma contains_lower_split (p s : string) :
  contains p (lower s) = true <->
  exists pre rest, s = (pre ++ rest)%string /\ starts_with p (lower rest) = true.
Proof.
  induction s as [|c t IH].
  - simpl. rewrite orb_false_r. split.
    + intros H. exists EmptyString, EmptyString. auto.
    + intros (pre & rest & Heq & H).
      destruct pre; [|discriminate Heq]. simpl in Heq. subst rest. exact H.
  - cbn [lower contains]. rewrite orb_true_iff, IH. split.
    + intros [H | (pre & rest & -> & H)].
      * exists EmptyString, (String c t). auto.
      * exists (String c pre), rest. auto.
    + intros (pre & rest & Heq & H). destruct pre as [|c' pre].
      * simpl in Heq. subst rest. left. exact H.
      * simpl in Heq. injection Heq as <- ->. right. eauto.
Qed.

Lemma starts_with_prefix (p s : string) :
  starts_with p s = true <-> exists post, s = (p ++ post)%string.
Proof.
  revert s. induction p as [|a p IH]; intros s.
  - simpl. split; [intros _; exists s; reflexivity | reflexivity].
  - destruct s as [|b s].
    + simpl. split; [discriminate | intros (post & H); discriminate H].
    + cbn [starts_with]. rewrite andb_true_iff, Ascii.eqb_eq, IH. split.
      * intros (-> & post & ->). exists post. reflexivity.
      * intros (post & H). simpl in H. injection H as -> ->. eauto.
Qed.

Lemma mem_remove_char (x : ascii) (s : string) :
  mem_char x (remove_char x s) = false.
Proof.
  induction s as [|c t IH]; simpl; [reflexivity|].
  destruct (Ascii.eqb c x) eqn:Hc; [exact IH|].
  simpl. rewrite Hc, IH. reflexivity.
Qed.

Lemma remove_char_absent (x : ascii) (s : string) :
  mem_char x s = false -> remove_char x s = s.
Proof.
  induction s as [|c t IH]; simpl; [reflexivity|].
  destruct (Ascii.eqb c x); simpl; [discriminate|].
  intros H. rewrite IH by exact H. reflexivity.
Qed.

Lemma lstrip_blank (s : string) : blank s = true -> lstrip s = EmptyString.
Proof.
  induction s as [|c t IH]; simpl; [reflexivity|].
  destruct (isspace c); simpl; [exact IH | discriminate].
Qed.

Lemma lstrip_head (s : string) :
  match lstrip s with
  | EmptyString => blank s = true
  | String c _ => isspace c = false
  end.
Proof.
  induction s as [|c t IH]; simpl; [reflexivity|].
  destruct (isspace c) eqn:Hc; simpl; [exact IH | exact Hc].
Qed.

Lemma rstrip_head (c : ascii) (t : string) :
  isspace c = false -> rstrip (String c t) <> EmptyString.
Proof.
  intros Hc. simpl. destruct (rstrip t); [rewrite Hc|]; discriminate.
Qed.

(** [strip] gives the empty string on blank lines only. *)
Lemma strip_empty_blank (s : string) :
  is_empty (strip s) = true -> blank s = true.
Proof.
  unfold strip. pose proof (lstrip_head s) as H.
  destruct (lstrip s) as [|c t]; [intros _; exact H|].
  intros He. pose proof (@rstrip_head c t H) as Hne.
  destruct (rstrip (String c t)); [congruence | discriminate He].
Qed.

Lemma strip_blank (s : string) : blank s = true -> strip s = EmptyString.
Proof. intros H. unfold strip. rewrite lstrip_blank by exact H. reflexivity. Qed.

End PyStrFacts.

Lemma contains_true_says_true (text : string) :
  PyStr.contains "true" (PyStr.lower text) = true <-> says_true text.
Proof.
  rewrite PyStrFacts.contains_lower_split. unfold says_true. split.
  - intros (pre & rest & -> & H).
    apply PyStrFacts.starts_with_prefix in H. destruct H as (post' & H).
    destruct rest as [|c1 [|c2 [|c3 [|c4 post]]]]; try discriminate H.
    cbn [PyStr.lower] in H. simpl String.append in H.
    injection H as H1 H2 H3 H4 _.
    exists pre, c1, c2, c3, c4, post. split; [reflexivity|].
    rewrite <- PyStrFacts.lower_char_t, <- PyStrFacts.lower_char_r,
      <- PyStrFacts.lower_char_u, <- PyStrFacts.lower_char_e. auto.
  - intros (pre & c1 & c2 & c3 & c4 & post & -> & H1 & H2 & H3 & H4).
    exists pre, (String c1 (String c2 (String c3 (String c4 post)))).
    split; [reflexivity|].
    apply PyStrFacts.lower_char_t in H1. apply PyStrFacts.lower_char_r in H2.
    apply PyStrFacts.lower_char_u in H3. apply PyStrFacts.lower_char_e in H4.
    apply PyStrFacts.starts_with_prefix. exists (PyStr.lower post).
    cbn [PyStr.lower]. rewrite H1, H2, H3, H4. reflexivity.
Qed.

(** ** Python lists *)

Module PyListFacts.
Import PyList.

Section Facts.
Context {A : Type}.

Lemma position_bound (l : list A) (i : Z) (k : nat) :
  position l i = Some k -> k < length l.
Proof.
  unfold position, len. intros H.
  destruct (i <? 0)%Z eqn:Hi;
    match type of H with
    | (if ?c then _ else _) = _ => destruct c eqn:Hc; [|discriminate H]
    end;
    injection H as <-;
    apply andb_prop in Hc; destruct Hc as [H0 H1];
    apply Z.leb_le in H0; apply Z.ltb_lt in H1; lia.
Qed.

Lemma position_nonneg (l : list A) (i : Z) :
  (0 <= i < len l)%Z -> position l i = Some (Z.to_nat i).
Proof.
  intros [H0 H1]. unfold position.
  destruct (i <? 0)%Z eqn:Hi; [apply Z.ltb_lt in Hi; lia|].
  apply Z.leb_le in H0. apply Z.ltb_lt in H1. rewrite H0, H1. reflexivity.
Qed.

Lemma remove_at_length (l : list A) (k : nat) :
  k < length l -> length (remove_at k l) + 1 = length l.
Proof.
  intros H. unfold remove_at.
  rewrite length_app, length_firstn, length_skipn. lia.
Qed.

Lemma pop_length (l rest : list A) (i : Z) :
  pop l i = Some rest -> length rest + 1 = length l.
Proof.
  unfold pop. destruct (position l i) as [k|] eqn:Hk; [|discriminate].
  intros H. injection H as <-.
  apply remove_at_length. eapply position_bound. exact Hk.
Qed.

Lemma index_some (l : list A) (i : Z) (k : nat) :
  position l i = Some k -> exists a, index l i = Some a.
Proof.
  intros H. unfold index. rewrite H.
  destruct (nth_error l k) as [a|] eqn:Hn; [eauto|].
  apply nth_error_None in Hn. apply position_bound in H. lia.
Qed.

Lemma position_nil (i : Z) : position (@nil A) i = None.
Proof.
  destruct (position (@nil A) i) as [k|] eqn:Hk; [|reflexivity].
  apply position_bound in Hk. simpl in Hk. lia.
Qed.

Lemma index_nil (i : Z) : index (@nil A) i = None.
Proof. unfold index. rewrite position_nil. reflexivity. Qed.

Lemma is_empty_true (l : list A) : is_empty l = true <-> l = [].
Proof. destruct l; simpl; split; congruence. Qed.
End Facts.

End PyListFacts.

(** ** What the functions below [main] leave alone *)

(** The conversation is the same. *)
Definition same_convo : frame.
Proof.
  refine {| rel := fun st st' => convo st' = convo st |}.
  - reflexivity.
  - intros st1 st2 st3 H12 H23. congruence.
  - reflexivity.
Defined.

(** The trace has only been added to. *)
Definition longer_trace : frame.
Proof.
  refine {| rel := fun st st' => exists evs, trace st' = trace st ++ evs |}.
  - intros st. exists []. rewrite app_nil_r. reflexivity.
  - intros st1 st2 st3 [e1 H1] [e2 H2]. exists (e1 ++ e2).
    rewrite H2, H1, app_assoc. reflexivity.
  - intros ev st. exists [ev]. reflexivity.
Defined.

Section Frame.

Variable F : frame.

Lemma keeps_ret {A} (a : A) : keeps F (ret a).
Proof. intros st. apply rel_refl. Qed.

Lemma keeps_raise {A} (x : exn) : keeps F (@raise A x).
Proof. intros st. apply rel_refl. Qed.

Lemma keeps_lift {A} (o : outcome A) : keeps F (lift o).
Proof. intros st. apply rel_refl. Qed.

Lemma keeps_bind {A B} (m : M A) (k : A -> M B) :
  keeps F m -> (forall a, keeps F (k a)) -> keeps F (bind m k).
Proof.
  intros Hm Hk st. unfold bind. specialize (Hm st).
  destruct (m st) as [[a|x] st']; simpl in *.
  - eapply rel_trans; [exact Hm | apply Hk].
  - exact Hm.
Qed.

Lemma keeps_try {A} (m h : M A) :
  keeps F m -> keeps F h -> keeps F (try_except m h).
Proof.
  intros Hm Hh st. unfold try_except. specialize (Hm st).
  destruct (m st) as [[a|x] st']; simpl in *.
  - exact Hm.
  - eapply rel_trans; [exact Hm | apply Hh].
Qed.

Lemma keeps_last : keeps F convo_last_content.
Proof.
  intros st. unfold convo_last_content.
  destruct (PyList.index (convo st) (-1)); apply rel_refl.
Qed.

Variable E : env.

Lemma keeps_call_chat msgs : keeps F (call_chat E msgs).
Proof. intros st. apply rel_emit. Qed.

Lemma keeps_call_get_results url : keeps F (call_get_results E url).
Proof. intros st. apply rel_emit. Qed.

Lemma keeps_call_fetch_url l : keeps F (call_fetch_url E l).
Proof. intros st. apply rel_emit. Qed.

Ltac keeps_step :=
  first
    [ apply keeps_ret | apply keeps_raise | apply keeps_lift | apply keeps_last
    | apply keeps_call_chat | apply keeps_call_get_results
    | apply keeps_call_fetch_url
    | apply keeps_try | apply keeps_bind; [|intro]
    | match goal with
      | |- keeps _ (match ?x with _ => _ end) => destruct x
      | |- keeps _ (let _ := _ in _) => cbv zeta
      end
    | assumption ].

Ltac keeps_all := repeat keeps_step.

Lemma keeps_check_search_or_not : keeps F (check_search_or_not E).
Proof. unfold check_search_or_not. keeps_all. Qed.

Lemma keeps_query_generator : keeps F (query_generator E).
Proof. unfold query_generator. keeps_all. Qed.

Lemma keeps_search_duckduckgo q : keeps F (search_duckduckgo E q).
Proof. unfold search_duckduckgo. keeps_all. Qed.

Lemma keeps_select_retry n cs msg : keeps F (select_retry E n cs msg).
Proof.
  induction n as [|n IH]; simpl; [apply keeps_ret|].
  unfold select_once. keeps_all.
Qed.

Lemma keeps_best_search_results cs q : keeps F (best_search_results E cs q).
Proof.
  unfold best_search_results.
  destruct (PyList.is_empty cs); [apply keeps_ret|].
  apply keeps_bind; [apply keeps_last | intro; apply keeps_select_retry].
Qed.

Lemma keeps_scrape_page l : keeps F (scrape_page E l).
Proof. unfold scrape_page. keeps_all. Qed.

Lemma keeps_contain_data_needed t q : keeps F (contain_data_needed E t q).
Proof. unfold contain_data_needed. keeps_all. Qed.

Lemma keeps_attempt_body cs q : keeps F (attempt_body E cs q).
Proof.
  unfold attempt_body.
  apply keeps_bind; [apply keeps_best_search_results | intro idx].
  destruct (PyList.len cs <=? idx)%Z; [apply keeps_ret|].
  apply keeps_bind; [apply keeps_lift | intro result].
  apply keeps_bind; [apply keeps_scrape_page | intro page_text].
  cbv zeta.
  assert (Hpop : keeps F (match PyList.pop cs idx with
                          | Some rest => ret (Popped rest)
                          | None => raise IndexError
                          end)) by keeps_all.
  destruct (truthy page_text) as [t|]; [|exact Hpop].
  apply keeps_bind; [apply keeps_contain_data_needed | intros [|]];
    [apply keeps_ret | exact Hpop].
Qed.

Lemma keeps_attempts range cs q : keeps F (attempts E range cs q).
Proof.
  revert cs. induction range as [|a range IH]; intros cs; simpl; [apply keeps_ret|].
  apply keeps_bind; [apply keeps_attempt_body|].
  intros [t| |rest]; [apply keeps_ret | apply IH | apply IH].
Qed.

Lemma keeps_ai_search : keeps F (ai_search E).
Proof.
  unfold ai_search.
  apply keeps_try; [|apply keeps_ret].
  apply keeps_bind; [apply keeps_query_generator|intro generated].
  apply keeps_bind; [apply keeps_search_duckduckgo|intro rs].
  destruct (PyList.is_empty rs); [apply keeps_ret | apply keeps_attempts].
Qed.

End Frame.

(** ** The two judges *)

Lemma judged_answer (answer : option string) :
  judged answer
    (match answer with
     | Some reply => PyStr.contains "true" (PyStr.lower reply)
     | None => false
     end).
Proof.
  unfold judged. destruct answer as [reply|].
  - rewrite contains_true_says_true. split.
    + intros H. exists reply. auto.
    + intros (r & Hr & H). injection Hr as ->. exact H.
  - split; [discriminate | intros (r & Hr & _); discriminate Hr].
Qed.

(** C6.  With a last message [m] in the conversation, [check_search_or_not]
    and [contain_data_needed] always return a boolean, and this boolean is
    [True] exactly when the model call answered with a text that holds
    "true" in some mix of upper and lower case; a failed call therefore
    gives [False].  The rule is the same for every page text and query. *)
Theorem judges_read_true (E : env) (st : state) (m : message) :
  PyList.index (convo st) (-1) = Some m ->
  (exists b,
      fst (check_search_or_not E st) = Ok b /\
      judged (chat E (length (trace st))
                [sys_msgs.should_search_decision_agent; user (content m)]) b)
  /\
  (forall page query, exists b,
      fst (contain_data_needed E page query st) = Ok b /\
      judged (chat E (length (trace st))
                [sys_msgs.page_content_validator_agent;
                 user (page_content_msg_of page (content m) query)]) b).
Proof.
  intros Hm. split; [|intros page query].
  - unfold check_search_or_not, try_except, bind, convo_last_content, call_chat.
    rewrite Hm. cbn [fst snd of_answer].
    pose proof (judged_answer
      (chat E (length (trace st))
         [sys_msgs.should_search_decision_agent; user (content m)])) as J.
    destruct (chat E (length (trace st)) _) as [reply|]; cbn; eauto.
  - unfold contain_data_needed, try_except, bind, convo_last_content, call_chat.
    rewrite Hm. cbn [fst snd of_answer].
    pose proof (judged_answer
      (chat E (length (trace st))
         [sys_msgs.page_content_validator_agent;
          user (page_content_msg_of page (content m) query)])) as J.
    destruct (chat E (length (trace st)) _) as [reply|]; cbn; eauto.
Qed.

Lemma judges_read_true_witness :
  let E := fixed_world "True." three_blocks "page" in
  let st := asked "who won?" in
  PyList.index (convo st) (-1) = Some (user "who won?") /\
  ((exists b,
       fst (check_search_or_not E st) = Ok b /\
       judged (chat E (length (trace st))
                 [sys_msgs.should_search_decision_agent; user "who won?"]) b)
   /\
   (forall page query, exists b,
       fst (contain_data_needed E page query st) = Ok b /\
       judged (chat E (length (trace st))
                 [sys_msgs.page_content_validator_agent;
                  user (page_content_msg_of page "who won?" query)]) b)).
Proof.
  intros E st. split; [reflexivity|].
  apply (@judges_read_true E st (user "who won?")). reflexivity.
Defined.

(** ** Blank input lines *)

(** C10.  A line that is empty or made of white space only leaves the
    state as it is: the conversation is unchanged and no outbound call is
    added to the trace; the loop goes on with the next line. *)
Theorem blank_line_ignored (E : env) (prompt : string) (rest : list string)
        (st : state) :
  blank prompt = true ->
  turn E prompt st = st /\ main E (prompt :: rest) st = main E rest st.
Proof.
  intros Hb.
  assert (Ht : turn E prompt st = st).
  { unfold turn, turn_body. rewrite PyStrFacts.strip_blank by exact Hb. reflexivity. }
  split; [exact Ht|]. simpl. rewrite Ht. reflexivity.
Qed.

Lemma blank_line_ignored_witness :
  let E := fixed_world "True" three_blocks "page" in
  blank "   " = true /\
  (turn E "   " initial_state = initial_state /\
   main E ["   "; "hello"] initial_state = main E ["hello"] initial_state).
Proof.
  intros E. split; [reflexivity|].
  apply (@blank_line_ignored E "   " ["hello"] initial_state). reflexivity.
Defined.

(** ** Selection *)

Section Selection.

Variable E : env.

(** Whatever the model replies, the retried selection returns, and what
    it returns is not above the last position. *)
Lemma select_retry_upper (n : nat) (cs : list candidate) (msg : string) (st : state) :
  cs <> [] ->
  exists idx st',
    select_retry E n cs msg st = (Ok idx, st') /\
    (idx <= PyList.len cs - 1)%Z.
Proof.
  intros Hcs. revert st. induction n as [|n IH]; intros st.
  - simpl. exists 0%Z, st. split; [reflexivity|].
    unfold PyList.len. destruct cs; [congruence|]. simpl length. lia.
  - simpl. unfold try_except, select_once, bind, call_chat.
    destruct (chat E (length (trace st)) _) as [reply|]; cbn [of_answer].
    + destruct (PyStr.int reply) as [index|]; cbn.
      * eexists _, _. split; [reflexivity|]. lia.
      * apply IH.
    + apply IH.
Qed.

(** What a call of [best_search_results] can do. *)
Lemma best_search_results_cases (cs : list candidate) (q : string)
      (st st' : state) (r : outcome Z) :
  best_search_results E cs q st = (r, st') ->
  match r with
  | Ok idx => (cs = [] /\ idx = 0%Z /\ st' = st) \/
              (cs <> [] /\ (idx <= PyList.len cs - 1)%Z)
  | Raise _ => cs <> [] /\ PyList.index (convo st) (-1) = None
  end.
Proof.
  unfold best_search_results. destruct cs as [|c cs]; unfold PyList.is_empty.
  - intros H. injection H as <- <-. left. auto.
  - unfold bind, convo_last_content.
    destruct (PyList.index (convo st) (-1)) as [m|] eqn:Hm.
    + intros H.
      destruct (@select_retry_upper 3 (c :: cs)
                  (best_msg_of E (c :: cs) (content m) q) st)
        as (idx & st1 & Hs & Hle); [discriminate|].
      rewrite Hs in H. injection H as <- <-. right.
      split; [discriminate | exact Hle].
    + intros H. injection H as <- <-. split; [discriminate | reflexivity].
Qed.

End Selection.

(** C1, at a reply the code can receive.  With three candidates and a model
    that answers "-5", [best_search_results] returns -5, which is not an
    index between 0 and 2.  It is no position of the list for Python
    either: the first pass of the retrieval loop raises [IndexError] at
    [search_results[best_result_index]], and the loop ends there. *)
Theorem best_search_results_negative :
  let E := fixed_world "-5" three_blocks "page" in
  let st := asked "who won?" in
  fst (best_search_results E three_candidates "query" st) = Ok (-5)%Z /\
  ~ (0 <= -5 <= PyList.len three_candidates - 1)%Z /\
  PyList.index three_candidates (-5) = None /\
  map (@p_end) (passes E (seq 0 max_attempts) three_candidates "query" st)
    = [Raise IndexError].
Proof.
  intros E st. split; [vm_compute; reflexivity|].
  split; [unfold PyList.len; simpl; lia|].
  split; [reflexivity | vm_compute; reflexivity].
Qed.

(** The two parts of the selection contract that do hold: no call is made
    for an empty list, and the result never exceeds the last position. *)
Lemma best_search_results_empty (E : env) (q : string) (st : state) :
  best_search_results E [] q st = (Ok 0%Z, st).
Proof. reflexivity. Qed.

Lemma best_search_results_upper (E : env) (cs : list candidate) (q : string)
      (st : state) (idx : Z) :
  cs <> [] ->
  fst (best_search_results E cs q st) = Ok idx ->
  (idx <= PyList.len cs - 1)%Z.
Proof.
  intros Hcs H.
  destruct (best_search_results E cs q st) as [r st'] eqn:Hb.
  apply best_search_results_cases in Hb. simpl in H. subst r.
  destruct Hb as [(-> & _) | (_ & Hle)]; [congruence | exact Hle].
Qed.

(** ** The retrieval loop *)

Section Retrieval.

Variable E : env.

Lemma truthy_nonempty (o : option string) (t : string) :
  truthy o = Some t -> t <> EmptyString.
Proof.
  destruct o as [s|]; simpl; [|discriminate].
  destruct s; simpl; [discriminate|]. intros H. injection H as <-. discriminate.
Qed.

Lemma scrape_page_returns (l : string) (st : state) :
  exists page_text st', scrape_page E l st = (Ok page_text, st').
Proof.
  unfold scrape_page, try_except, bind, call_fetch_url, lift.
  destruct (fetch_url E (length (trace st)) l) as [[d|]|]; cbn [of_answer];
    try (eexists _, _; reflexivity).
  destruct (PyStr.is_empty d); try (eexists _, _; reflexivity).
  destruct (extract E d) as [r|]; cbn; eexists _, _; reflexivity.
Qed.

(** How one pass through the loop body can end, and what each ending
    tells about the candidates: the index check only stops a pass when
    there is no candidate left, and then nothing at all has happened; a
    pass that reaches the end of the body has removed one candidate. *)
Lemma attempt_body_cases (cs : list candidate) (q : string)
      (st st' : state) (r : outcome iter) :
  attempt_body E cs q st = (r, st') ->
  match r with
  | Ok (Return t) => t <> EmptyString /\ cs <> []
  | Ok Continue => cs = [] /\ st' = st
  | Ok (Popped rest) => length rest + 1 = length cs
  | Raise _ => True
  end.
Proof.
  unfold attempt_body, bind.
  destruct (best_search_results E cs q st) as [[idx|x] st1] eqn:Hb;
    [|intros H; injection H as <- _; exact I].
  apply best_search_results_cases in Hb.
  destruct (PyList.len cs <=? idx)%Z eqn:Hg.
  - intros H. injection H as <- <-. apply Z.leb_le in Hg.
    destruct Hb as [(-> & _ & ->) | (_ & Hle)]; [auto | lia].
  - unfold lift.
    destruct (PyList.index cs idx) as [c|] eqn:Hc;
      [|intros H; injection H as <- _; exact I].
    assert (Hne : cs <> []).
    { intros ->. rewrite PyListFacts.index_nil in Hc. discriminate Hc. }
    destruct (scrape_page_returns (link c) st1) as (pt & st2 & Hs).
    rewrite Hs. cbv zeta.
    assert (Hpop : forall s,
               match PyList.pop cs idx with
               | Some rest => ret (Popped rest)
               | None => raise IndexError
               end s = (r, st') ->
               match r with
               | Ok (Return t) => t <> EmptyString /\ cs <> []
               | Ok Continue => cs = [] /\ st' = st
               | Ok (Popped rest) => length rest + 1 = length cs
               | Raise _ => True
               end).
    { intros s. destruct (PyList.pop cs idx) as [rest|] eqn:Hp.
      - intros H. injection H as <- _. eapply PyListFacts.pop_length. exact Hp.
      - intros H. injection H as <- _. exact I. }
    destruct (truthy pt) as [t|] eqn:Ht; [|apply Hpop].
    destruct (contain_data_needed E t q st2) as [[[|]|x] st3].
    + intros H. injection H as <- _. split; [|exact Hne].
      eapply truthy_nonempty. exact Ht.
    + apply Hpop.
    + intros H. injection H as <- _. exact I.
Qed.

Lemma attempts_loop_result (range : list nat) (cs : list candidate)
      (q : string) (st : state) :
  fst (attempts E range cs q st) = loop_result (passes E range cs q st).
Proof.
  revert cs st. induction range as [|a range IH]; intros cs st; simpl.
  - reflexivity.
  - unfold bind. destruct (attempt_body E cs q st) as [[[t| |rest]|x] st1];
      simpl; auto.
Qed.

Lemma passes_length (range : list nat) (cs : list candidate) (q : string)
      (st : state) :
  length (passes E range cs q st) <= length range.
Proof.
  revert cs st. induction range as [|a range IH]; intros cs st; simpl.
  - lia.
  - destruct (attempt_body E cs q st) as [[[t| |rest]|x] st1]; simpl;
      try lia.
    + specialize (IH cs st1). lia.
    + specialize (IH rest st1). lia.
Qed.

(** The passes carry the values of the loop variable in order. *)
Lemma passes_attempt (range : list nat) (cs : list candidate) (q : string)
      (st : state) (k : nat) (p : pass) :
  nth_error (passes E range cs q st) k = Some p ->
  nth_error range k = Some (p_attempt p).
Proof.
  revert cs st k. induction range as [|a range IH]; intros cs st k; simpl.
  - destruct k; discriminate.
  - destruct (attempt_body E cs q st) as [r st1].
    destruct k as [|k]; simpl.
    + intros H. injection H as <-. reflexivity.
    + destruct r as [[t| |rest]|x]; try (destruct k; discriminate); apply IH.
Qed.

(** Each pass starts from what the pass before it left. *)
Lemma passes_chain (range : list nat) (cs : list candidate) (q : string)
      (st : state) (k : nat) (p p' : pass) :
  nth_error (passes E range cs q st) k = Some p ->
  nth_error (passes E range cs q st) (S k) = Some p' ->
  p_before p' = p_after p.
Proof.
  revert cs st k. induction range as [|a range IH]; intros cs st k; simpl.
  - destruct k; discriminate.
  - destruct (attempt_body E cs q st) as [r st1].
    destruct k as [|k]; simpl.
    + intros H. injection H as <-. unfold p_after. simpl.
      destruct r as [[t| |rest]|x]; try discriminate;
        (destruct range as [|b range]; simpl; [discriminate|]);
        match goal with
        | |- context [attempt_body E ?c q st1] =>
            destruct (attempt_body E c q st1) as [r2 st2]
        end;
        intros H; injection H as <-; reflexivity.
    + destruct r as [[t| |rest]|x]; try (destruct k; discriminate); apply IH.
Qed.

Lemma passes_ok (range : list nat) (cs : list candidate) (q : string)
      (st : state) :
  Forall (pass_ok cs) (passes E range cs q st).
Proof.
  revert cs st. induction range as [|a range IH]; intros cs st; simpl;
    [constructor|].
  destruct (attempt_body E cs q st) as [r st1] eqn:Hb.
  apply attempt_body_cases in Hb.
  constructor.
  - split; [simpl; lia|]. simpl.
    destruct r as [[t| |rest]|x]; tauto.
  - destruct r as [[t| |rest]|x]; try constructor.
    + apply IH.
    + eapply Forall_impl; [|apply (IH rest st1)].
      intros p [Hlen Hp]. split; [lia | exact Hp].
Qed.

End Retrieval.

Section RetrievalRuns.

Variable E : env.

Lemma passes_head (range : list nat) (cs : list candidate) (q : string)
      (st : state) (p : pass) (ps : list pass) :
  passes E range cs q st = p :: ps -> p_before p = cs.
Proof.
  destruct range as [|a range]; simpl; [discriminate|].
  destruct (attempt_body E cs q st) as [r st1].
  intros H. injection H as <- _. reflexivity.
Qed.

(** The candidates before each pass but the first are the candidates
    after each pass but the last. *)
Lemma passes_linked (range : list nat) (cs : list candidate) (q : string)
      (st : state) :
  let ps := passes E range cs q st in
  map (@p_before) (tl ps) = map (@p_after) (removelast ps).
Proof.
  revert cs st. induction range as [|a range IH]; intros cs st; [reflexivity|].
  cbn [passes]. destruct (attempt_body E cs q st) as [r st1].
  set (p := {| p_attempt := a; p_before := cs; p_end := r |}).
  assert (Hnext : forall cs',
             p_after p = cs' ->
             map (@p_before) (passes E range cs' q st1) =
             map (@p_after) (removelast (p :: passes E range cs' q st1))).
  { intros cs' Hafter. specialize (IH cs' st1). cbv zeta in IH.
    destruct (passes E range cs' q st1) as [|p2 ps2] eqn:Hps; [reflexivity|].
    apply passes_head in Hps. cbn [tl] in IH.
    change (removelast (p :: p2 :: ps2)) with (p :: removelast (p2 :: ps2)).
    cbn [map]. rewrite Hps, Hafter, IH. reflexivity. }
  cbv zeta. cbn [tl].
  destruct r as [[t| |rest]|x]; try reflexivity; apply Hnext; reflexivity.
Qed.

(** Every recorded pass is a run of the loop body. *)
Lemma passes_run (range : list nat) (cs : list candidate) (q : string)
      (st : state) (k : nat) (p : pass) :
  nth_error (passes E range cs q st) k = Some p ->
  exists s s', attempt_body E (p_before p) q s = (p_end p, s').
Proof.
  revert cs st k. induction range as [|a range IH]; intros cs st k; simpl.
  - destruct k; discriminate.
  - destruct (attempt_body E cs q st) as [r st1] eqn:Hb.
    destruct k as [|k]; simpl.
    + intros H. injection H as <-. simpl. eauto.
    + destruct r as [[t| |rest]|x]; try (destruct k; discriminate); apply IH.
Qed.

(** With no candidate the index check stops the pass at once. *)
Lemma attempt_body_nil (q : string) (st : state) :
  attempt_body E [] q st = (Ok Continue, st).
Proof. reflexivity. Qed.

End RetrievalRuns.

(** C2, as the code has it.  The retrieval loop runs its body at most five
    times, and its result is the one read off these passes.  No pass
    starts from more candidates than the search returned, no pass leaves
    more candidates than it started from, and each pass starts from what
    the one before it left.  A pass that reaches the end of the body has
    removed exactly one candidate; a pass stopped by the index check
    started from the empty list and leaves it as it is. *)
Theorem retrieval_passes (E : env) (cs : list candidate) (q : string) (st : state) :
  let ps := passes E (seq 0 max_attempts) cs q st in
  fst (attempts E (seq 0 max_attempts) cs q st) = loop_result ps /\
  length ps <= 5 /\
  Forall (fun p => length (p_before p) <= length cs /\
                   length (p_after p) <= length (p_before p)) ps /\
  map (@p_before) (tl ps) = map (@p_after) (removelast ps) /\
  Forall (fun p => match p_end p with
                   | Ok (Popped rest) => length rest + 1 = length (p_before p)
                   | Ok Continue => p_before p = [] /\ p_after p = []
                   | _ => True
                   end) ps.
Proof.
  intros ps. split; [apply attempts_loop_result|].
  split; [apply (passes_length E (seq 0 max_attempts) cs q st)|].
  pose proof (passes_ok E (seq 0 max_attempts) cs q st) as Hok.
  fold ps in Hok.
  split; [|split; [apply passes_linked|]].
  - eapply Forall_impl; [|exact Hok].
    intros p [Hlen Hp]. split; [exact Hlen|].
    unfold p_after. destruct (p_end p) as [[t| |rest]|x]; lia.
  - eapply Forall_impl; [|exact Hok].
    intros p [_ Hp]. unfold p_after.
    destruct (p_end p) as [[t| |rest]|x]; auto.
Qed.

(** With three candidates and no relevant page the fourth pass is stopped
    by the index check: it does not return the page text and the count
    stays at zero. *)
Lemma failed_pass_without_removal :
  let E := fixed_world "0" three_blocks "page" in
  ~ every_failed_pass_removes_one
      (passes E (seq 0 max_attempts) three_candidates "0" (asked "who won?")).
Proof.
  intros E H.
  specialize (H {| p_attempt := 3; p_before := []; p_end := Ok Continue |}).
  assert (Hin : In {| p_attempt := 3; p_before := []; p_end := Ok Continue |}
                   (passes E (seq 0 max_attempts) three_candidates "0" (asked "who won?"))).
  { vm_compute. right. right. right. left. reflexivity. }
  specialize (H Hin). simpl in H.
  assert (H1 : 0 + 1 = 0) by (apply H; intros t; discriminate).
  discriminate H1.
Qed.

(** ** The index check *)

(** In the run with three candidates and no relevant page the fourth pass
    is stopped by the check and the fifth runs with the next value of the
    loop variable. *)
Lemma skip_uses_retry :
  let E := fixed_world "0" three_blocks "page" in
  ~ skip_keeps_retry
      (passes E (seq 0 max_attempts) three_candidates "0" (asked "who won?")).
Proof.
  intros E H.
  destruct (H 3 {| p_attempt := 3; p_before := []; p_end := Ok Continue |})
    as (p' & Hp' & Hattempt); [reflexivity | reflexivity |].
  vm_compute in Hp'. injection Hp' as <-. discriminate Hattempt.
Qed.

(** C4, as the code has it.  When the index check stops the pass numbered
    [k], that pass is one of the five: its loop variable is [k], below
    [max_attempts].  It started from the empty candidate list, and a pass
    from the empty list changes nothing: no model call, no download, no
    removal.  The pass after it, when there is one, has the loop variable
    [k + 1] and is stopped by the check in the same way. *)
Theorem skip_is_a_pass (E : env) (cs : list candidate) (q : string) (st : state)
        (k : nat) (p : pass) :
  let ps := passes E (seq 0 max_attempts) cs q st in
  nth_error ps k = Some p ->
  p_end p = Ok Continue ->
  p_attempt p = k /\ k < max_attempts /\
  p_before p = [] /\
  (forall st', attempt_body E (p_before p) q st' = (Ok Continue, st')) /\
  (forall p', nth_error ps (S k) = Some p' ->
              p_attempt p' = S k /\ p_before p' = [] /\ p_end p' = Ok Continue).
Proof.
  intros ps Hk Hend.
  assert (Hat : forall j p0, nth_error ps j = Some p0 ->
                             p_attempt p0 = j /\ j < max_attempts).
  { intros j p0 Hj. apply passes_attempt in Hj.
    assert (Hlt : j < length (seq 0 max_attempts))
      by (apply nth_error_Some; congruence).
    rewrite length_seq in Hlt. split; [|exact Hlt].
    rewrite nth_error_nth' with (d := 0) in Hj
      by (rewrite length_seq; exact Hlt).
    rewrite seq_nth in Hj by exact Hlt. injection Hj as Hj. lia. }
  assert (Hnil : p_before p = []).
  { pose proof (passes_ok E (seq 0 max_attempts) cs q st) as Hok.
    rewrite Forall_forall in Hok.
    destruct (Hok p (nth_error_In _ _ Hk)) as [_ Hp].
    rewrite Hend in Hp. exact Hp. }
  destruct (Hat k p Hk) as [Ha Hlt].
  repeat split; try assumption.
  - intros st'. rewrite Hnil. apply attempt_body_nil.
  - apply (Hat (S k) p' H).
  - rewrite (passes_chain E _ _ _ _ _ Hk H). unfold p_after.
    rewrite Hend. exact Hnil.
  - assert (Hb : p_before p' = []).
    { rewrite (passes_chain E _ _ _ _ _ Hk H). unfold p_after.
      rewrite Hend. exact Hnil. }
    destruct (passes_run E _ _ _ _ _ H) as (s & s' & Hrun).
    rewrite Hb, attempt_body_nil in Hrun. congruence.
Qed.

Lemma skip_is_a_pass_witness :
  let E := fixed_world "0" three_blocks "page" in
  let ps := passes E (seq 0 max_attempts) three_candidates "0" (asked "who won?") in
  let p := {| p_attempt := 3; p_before := []; p_end := Ok Continue |} in
  nth_error ps 3 = Some p /\
  p_end p = Ok Continue /\
  (p_attempt p = 3 /\ 3 < max_attempts /\
   p_before p = [] /\
   (forall st', attempt_body E (p_before p) "0" st' = (Ok Continue, st')) /\
   (forall p', nth_error ps 4 = Some p' ->
               p_attempt p' = 4 /\ p_before p' = [] /\ p_end p' = Ok Continue)).
Proof.
  intros E ps p. split; [reflexivity|]. split; [reflexivity|].
  apply (@skip_is_a_pass E three_candidates "0" (asked "who won?") 3 p);
    reflexivity.
Defined.

(** ** Three candidates, none relevant *)

Section NoneRelevant.

Variable E : env.
Variable c : list message.
Variable m : message.
Hypothesis last_message : PyList.index c (-1) = Some m.
Hypothesis no_page_relevant : never_relevant E c.
Hypothesis no_negative_index : never_negative E c.

(** Under these assumptions a pass over a non-empty list removes one
    candidate. *)
Lemma attempt_body_removes (cs : list candidate) (q : string) (st : state) :
  convo st = c -> cs <> [] ->
  exists rest st',
    attempt_body E cs q st = (Ok (Popped rest), st') /\
    length rest + 1 = length cs /\ convo st' = c.
Proof.
  intros Hc Hcs.
  pose proof (keeps_attempt_body same_convo E cs q st) as Hkeep.
  destruct (attempt_body E cs q st) as [r st'] eqn:Hrun.
  simpl in Hkeep.
  cut (exists rest, r = Ok (Popped rest)).
  { intros (rest & ->). exists rest, st'. split; [reflexivity|].
    apply attempt_body_cases in Hrun. split; [exact Hrun | congruence]. }
  revert Hrun. unfold attempt_body, bind.
  pose proof (no_negative_index cs q (trace st)) as Hnn.
  pose proof (keeps_best_search_results same_convo E cs q st) as Hk1.
  replace {| convo := c; trace := trace st |} with st in Hnn
    by (destruct st; simpl in *; congruence).
  destruct (best_search_results E cs q st) as [[idx|x] st1] eqn:Hb.
  - simpl in Hk1. specialize (Hnn idx eq_refl).
    apply best_search_results_cases in Hb.
    destruct Hb as [(-> & _) | (_ & Hle)]; [congruence|].
    destruct (PyList.len cs <=? idx)%Z eqn:Hg; [apply Z.leb_le in Hg; lia|].
    assert (Hpos : PyList.position cs idx = Some (Z.to_nat idx))
      by (apply PyListFacts.position_nonneg; lia).
    destruct (PyListFacts.index_some cs idx Hpos) as (cand & Hidx).
    unfold lift. rewrite Hidx.
    destruct (scrape_page_returns E (link cand) st1) as (pt & st2 & Hs).
    pose proof (keeps_scrape_page same_convo E (link cand) st1) as Hk2.
    rewrite Hs in *. simpl in Hk2. cbv zeta.
    unfold PyList.pop. rewrite Hpos.
    destruct (truthy pt) as [t|].
    + pose proof (no_page_relevant t q (trace st2)) as Hrel.
      replace {| convo := c; trace := trace st2 |} with st2 in Hrel
        by (destruct st2; simpl in *; congruence).
      destruct (contain_data_needed E t q st2) as [[b|x] st3];
        simpl in Hrel; [|discriminate Hrel].
      injection Hrel as ->. intros H. injection H as <- _. eauto.
    + intros H. injection H as <- _. eauto.
  - apply best_search_results_cases in Hb. destruct Hb as [_ Hb].
    rewrite Hc, last_message in Hb. discriminate Hb.
Qed.

(** From three candidates the loop removes three and is then stopped
    twice by the index check. *)
Lemma three_removals (c0 c1 c2 : candidate) (q : string) (st : state) :
  convo st = c ->
  let ps := passes E (seq 0 max_attempts) [c0; c1; c2] q st in
  map p_ending ps = [Removed; Removed; Removed; Skipped; Skipped] /\
  map (fun p => length (p_before p)) ps = [3; 2; 1; 0; 0] /\
  map (@p_attempt) ps = [0; 1; 2; 3; 4] /\
  loop_result ps = Ok None.
Proof.
  intros Hc. cbn [max_attempts seq passes].
  destruct (@attempt_body_removes [c0; c1; c2] q st Hc)
    as (r1 & s1 & -> & Hl1 & Hc1); [discriminate|].
  destruct r1 as [|a1 [|b1 [|? ?]]]; simpl in Hl1; try lia.
  destruct (@attempt_body_removes [a1; b1] q s1 Hc1)
    as (r2 & s2 & -> & Hl2 & Hc2); [discriminate|].
  destruct r2 as [|a2 [|? ?]]; simpl in Hl2; try lia.
  destruct (@attempt_body_removes [a2] q s2 Hc2)
    as (r3 & s3 & -> & Hl3 & Hc3); [discriminate|].
  destruct r3 as [|? ?]; simpl in Hl3; try lia.
  rewrite !attempt_body_nil. repeat split.
Qed.

End NoneRelevant.

(** The search returns three candidates, every relevance judgment says no,
    and the loop still runs its fourth pass. *)
Lemma fourth_pass_runs :
  let E := fixed_world "0" three_blocks "page" in
  let st := asked "who won?" in
  let st1 := snd (query_generator E st) in
  fst (search_duckduckgo E "0" st1) = Ok three_candidates /\
  never_relevant E (convo st) /\
  ~ no_fourth_pass
      (passes E (seq 0 max_attempts) three_candidates "0"
              (snd (search_duckduckgo E "0" st1))).
Proof.
  intros E st st1. split; [reflexivity|]. split.
  - intros page q tr. reflexivity.
  - intros H.
    specialize (H {| p_attempt := 3; p_before := []; p_end := Ok Continue |}).
    assert (H3 : 3 < 3).
    { apply H. vm_compute. right. right. right. left. reflexivity. }
    lia.
Qed.

(** C3, as the code has it.  When the search returns three candidates,
    every relevance judgment says no and no selection is negative, the
    loop runs all five passes: the first three remove one candidate each,
    from 3 to 2 to 1 to none, the last two are stopped by the index check
    on the empty list, and [ai_search] returns [None]. *)
Theorem three_irrelevant_candidates (E : env) (st st1 st2 : state)
        (generated : string) (c0 c1 c2 : candidate) :
  query_generator E st = (Ok generated, st1) ->
  search_duckduckgo E (PyStr.remove_char PyStr.dq generated) st1
    = (Ok [c0; c1; c2], st2) ->
  never_relevant E (convo st) ->
  never_negative E (convo st) ->
  let ps := passes E (seq 0 max_attempts) [c0; c1; c2]
                   (PyStr.remove_char PyStr.dq generated) st2 in
  fst (ai_search E st) = Ok None /\
  map p_ending ps = [Removed; Removed; Removed; Skipped; Skipped] /\
  map (fun p => length (p_before p)) ps = [3; 2; 1; 0; 0] /\
  map (@p_attempt) ps = [0; 1; 2; 3; 4].
Proof.
  intros Hq Hs Hrel Hneg ps.
  assert (Hm : exists m, PyList.index (convo st) (-1) = Some m).
  { revert Hq. unfold query_generator, bind, convo_last_content.
    destruct (PyList.index (convo st) (-1)) as [m|]; [eauto | discriminate]. }
  destruct Hm as (m & Hm).
  assert (Hc2 : convo st2 = convo st).
  { pose proof (keeps_query_generator same_convo E st) as K1.
    pose proof (keeps_search_duckduckgo same_convo E
                  (PyStr.remove_char PyStr.dq generated) st1) as K2.
    rewrite Hq in K1. rewrite Hs in K2. simpl in K1, K2. congruence. }
  destruct (@three_removals E (convo st) m Hm Hrel Hneg c0 c1 c2
              (PyStr.remove_char PyStr.dq generated) st2 Hc2)
    as (Hend & Hlen & Hatt & Hres).
  fold ps in Hend, Hlen, Hatt, Hres.
  repeat split; try assumption.
  unfold ai_search, try_except, bind. rewrite Hq. cbv zeta. rewrite Hs.
  cbn [PyList.is_empty].
  pose proof (attempts_loop_result E (seq 0 max_attempts) [c0; c1; c2]
                (PyStr.remove_char PyStr.dq generated) st2) as Hloop.
  fold ps in Hloop. rewrite Hres in Hloop.
  destruct (attempts E (seq 0 max_attempts) [c0; c1; c2] _ st2) as [r s3].
  simpl in Hloop. subst r. reflexivity.
Qed.

Lemma fixed_world_never_negative (blocks : list result_block) (page : string)
      (c : list message) :
  never_negative (fixed_world "0" blocks page) c.
Proof.
  intros cs q tr idx. destruct cs as [|x cs].
  - simpl. intros H. injection H as <-. lia.
  - unfold best_search_results. cbn [PyList.is_empty].
    unfold bind, convo_last_content. cbn [convo].
    destruct (PyList.index c (-1)) as [m|]; [|discriminate].
    cbn [select_retry]. unfold try_except, select_once, bind, call_chat.
    assert (Hhi : (0 <= PyList.len (x :: cs) - 1)%Z)
      by (unfold PyList.len; simpl length; lia).
    revert Hhi. generalize (PyList.len (x :: cs) - 1)%Z. intros hi Hhi.
    cbn [chat fixed_world of_answer].
    change (PyStr.int "0") with (Some 0%Z). cbn [fst ret].
    intros H. injection H as <-. lia.
Qed.

Lemma three_irrelevant_candidates_witness :
  let E := fixed_world "0" three_blocks "page" in
  let st := asked "who won?" in
  let st1 := snd (query_generator E st) in
  let st2 := snd (search_duckduckgo E "0" st1) in
  let ps := passes E (seq 0 max_attempts) three_candidates "0" st2 in
  query_generator E st = (Ok "0", st1) /\
  search_duckduckgo E (PyStr.remove_char PyStr.dq "0") st1
    = (Ok three_candidates, st2) /\
  never_relevant E (convo st) /\
  never_negative E (convo st) /\
  (fst (ai_search E st) = Ok None /\
   map p_ending ps = [Removed; Removed; Removed; Skipped; Skipped] /\
   map (fun p => length (p_before p)) ps = [3; 2; 1; 0; 0] /\
   map (@p_attempt) ps = [0; 1; 2; 3; 4]).
Proof.
  intros E st st1 st2 ps.
  assert (Hq : query_generator E st = (Ok "0", st1)) by reflexivity.
  assert (Hs : search_duckduckgo E (PyStr.remove_char PyStr.dq "0") st1
               = (Ok three_candidates, st2)) by reflexivity.
  assert (Hrel : never_relevant E (convo st))
    by (intros page q tr; reflexivity).
  assert (Hneg : never_negative E (convo st))
    by apply fixed_world_never_negative.
  repeat (split; [assumption|]).
  exact (@three_irrelevant_candidates E st st1 st2 "0" _ _ _ Hq Hs Hrel Hneg).
Defined.

(** ** The search query and the empty result page *)

Section QueryAndSearch.

Variable E : env.

(** [query_generator] makes one model call and hands back the reply as
    it is, or the last message as it is when the call fails. *)
Lemma query_generator_eq (st : state) (m : message) :
  PyList.index (convo st) (-1) = Some m ->
  query_generator E st =
  (Ok (query_text (chat E (length (trace st)) (query_request (content m)))
                  (content m)),
   emit (Chat (query_request (content m))) st).
Proof.
  intros Hm.
  unfold query_generator, bind, try_except, convo_last_content, call_chat.
  rewrite Hm. cbv zeta. unfold query_request.
  destruct (chat E (length (trace st)) _) as [reply|];
    cbn [of_answer query_text]; [reflexivity|].
  cbn [convo emit]. rewrite Hm. reflexivity.
Qed.

Lemma query_generator_run (st st1 : state) (generated : string) :
  query_generator E st = (Ok generated, st1) ->
  exists m,
    PyList.index (convo st) (-1) = Some m /\
    generated = query_text (chat E (length (trace st)) (query_request (content m)))
                           (content m) /\
    st1 = emit (Chat (query_request (content m))) st.
Proof.
  destruct (PyList.index (convo st) (-1)) as [m|] eqn:Hm.
  - rewrite (query_generator_eq st Hm). intros H. injection H as <- <-.
    exists m. auto.
  - unfold query_generator, bind, convo_last_content. rewrite Hm. discriminate.
Qed.

(** [search_duckduckgo] makes one request and never raises. *)
Lemma search_duckduckgo_run (q : string) (st : state) :
  search_duckduckgo E q st =
  (Ok match get_results E (length (trace st)) (search_url q) with
      | Some blocks =>
          match collect_results 0 blocks [] with
          | Ok rs => rs
          | Raise _ => []
          end
      | None => []
      end,
   emit (HttpGet (search_url q)) st).
Proof.
  unfold search_duckduckgo, try_except, bind, call_get_results, lift.
  destruct (get_results E (length (trace st)) (search_url q)) as [blocks|];
    cbn [of_answer]; [|reflexivity].
  destruct (collect_results 0 blocks []); reflexivity.
Qed.

End QueryAndSearch.

(** The result page has no block, the search returns the empty list,
    [ai_search] returns [None], and the model has been called once. *)
Lemma empty_search_after_model_call :
  let E := fixed_world "capital of France" [] "page" in
  let st := asked "who won?" in
  fst (search_duckduckgo E "capital of France" (snd (query_generator E st))) = Ok [] /\
  fst (ai_search E st) = Ok None /\
  ~ no_new_model_call st (snd (ai_search E st)).
Proof.
  intros E st. split; [reflexivity|]. split; [reflexivity|].
  unfold no_new_model_call. vm_compute. discriminate.
Qed.

(** C9, as the code has it.  When the search returns the empty list,
    [ai_search] returns [None]; the conversation is as before and the trace
    has grown by exactly two calls: the model call that generated the
    query, made before the search, and the request for the result page.
    No selection, relevance or download call is made. *)
Theorem empty_search_stops (E : env) (st st1 st2 : state) (generated : string) :
  query_generator E st = (Ok generated, st1) ->
  search_duckduckgo E (PyStr.remove_char PyStr.dq generated) st1 = (Ok [], st2) ->
  ai_search E st = (Ok None, st2) /\
  convo st2 = convo st /\
  exists m,
    PyList.index (convo st) (-1) = Some m /\
    trace st2 = trace st ++
                [Chat (query_request (content m));
                 HttpGet (search_url (PyStr.remove_char PyStr.dq generated))].
Proof.
  intros Hq Hs. split; [|split].
  - unfold ai_search, try_except, bind. rewrite Hq. cbv zeta. rewrite Hs.
    reflexivity.
  - pose proof (keeps_query_generator same_convo E st) as K1.
    pose proof (keeps_search_duckduckgo same_convo E
                  (PyStr.remove_char PyStr.dq generated) st1) as K2.
    rewrite Hq in K1. rewrite Hs in K2. simpl in K1, K2. congruence.
  - apply query_generator_run in Hq. destruct Hq as (m & Hm & _ & ->).
    exists m. split; [exact Hm|].
    rewrite search_duckduckgo_run in Hs. injection Hs as _ <-.
    simpl. rewrite <- app_assoc. reflexivity.
Qed.

Lemma empty_search_stops_witness :
  let E := fixed_world "capital of France" [] "page" in
  let st := asked "who won?" in
  let st1 := snd (query_generator E st) in
  let st2 := snd (search_duckduckgo E "capital of France" st1) in
  query_generator E st = (Ok "capital of France", st1) /\
  search_duckduckgo E (PyStr.remove_char PyStr.dq "capital of France") st1
    = (Ok [], st2) /\
  (ai_search E st = (Ok None, st2) /\
   convo st2 = convo st /\
   exists m,
     PyList.index (convo st) (-1) = Some m /\
     trace st2 = trace st ++
                 [Chat (query_request (content m));
                  HttpGet (search_url (PyStr.remove_char PyStr.dq "capital of France"))]).
Proof.
  intros E st st1 st2.
  assert (Hq : query_generator E st = (Ok "capital of France", st1))
    by reflexivity.
  assert (Hs : search_duckduckgo E (PyStr.remove_char PyStr.dq "capital of France") st1
               = (Ok [], st2)) by reflexivity.
  split; [exact Hq|]. split; [exact Hs|].
  exact (@empty_search_stops E st st1 st2 "capital of France" Hq Hs).
Defined.

(** ** Double quotes in the search query *)

(** C8, as it is worded, fails for [query_generator] itself: a reply in
    double quotes is returned with them. *)
Lemma query_generator_keeps_quotes :
  let reply := (sys_msgs.Q ++ "capital of France" ++ sys_msgs.Q)%string in
  let E := fixed_world reply three_blocks "page" in
  fst (query_generator E (asked "who won?")) = Ok reply /\
  PyStr.mem_char PyStr.dq reply = true.
Proof. split; reflexivity. Qed.

(** C8, as the code has it.  [query_generator] returns the reply of the
    model, or the last message when the call fails, as it is.  [ai_search]
    removes every double quote from that text, and the text without them
    is what it searches for: the call that follows query generation in the
    trace is the request for the result page of that text. *)
Theorem search_query_without_quotes (E : env) (st st1 : state) (generated : string) :
  query_generator E st = (Ok generated, st1) ->
  let search_query := PyStr.remove_char PyStr.dq generated in
  (exists m,
      PyList.index (convo st) (-1) = Some m /\
      generated = query_text (chat E (length (trace st)) (query_request (content m)))
                             (content m)) /\
  PyStr.mem_char PyStr.dq search_query = false /\
  exists later,
    trace (snd (ai_search E st)) =
    trace st1 ++ HttpGet (search_url search_query) :: later.
Proof.
  intros Hq search_query. split; [|split].
  - apply query_generator_run in Hq. destruct Hq as (m & Hm & Hg & _). eauto.
  - apply PyStrFacts.mem_remove_char.
  - unfold ai_search, try_except, bind. rewrite Hq. cbv zeta.
    fold search_query. rewrite search_duckduckgo_run.
    set (rs := match get_results E _ _ with Some _ => _ | None => _ end).
    set (st2 := emit (HttpGet (search_url search_query)) st1).
    assert (Hlater : forall (m : M (option string)),
               keeps longer_trace m ->
               exists later,
                 trace (snd (match m st2 with
                             | (Ok a, st') => (Ok a, st')
                             | (Raise _, st') => ret None st'
                             end)) =
                 trace st1 ++ HttpGet (search_url search_query) :: later).
    { intros m Hm. destruct (Hm st2) as (evs & Hevs).
      exists evs. destruct (m st2) as [[a|x] st3]; simpl in *;
        rewrite Hevs, <- app_assoc; reflexivity. }
    apply Hlater.
    destruct (PyList.is_empty rs); [apply keeps_ret | apply keeps_attempts].
Qed.

Lemma search_query_without_quotes_witness :
  let reply := (sys_msgs.Q ++ "capital of France" ++ sys_msgs.Q)%string in
  let E := fixed_world reply three_blocks "page" in
  let st := asked "who won?" in
  let st1 := snd (query_generator E st) in
  query_generator E st = (Ok reply, st1) /\
  ((exists m,
       PyList.index (convo st) (-1) = Some m /\
       reply = query_text (chat E (length (trace st)) (query_request (content m)))
                          (content m)) /\
   PyStr.mem_char PyStr.dq (PyStr.remove_char PyStr.dq reply) = false /\
   exists later,
     trace (snd (ai_search E st)) =
     trace st1 ++ HttpGet (search_url (PyStr.remove_char PyStr.dq reply)) :: later).
Proof.
  intros reply E st st1.
  assert (Hq : query_generator E st = (Ok reply, st1)) by reflexivity.
  split; [exact Hq|].
  exact (@search_query_without_quotes E st st1 reply Hq).
Defined.

(** ** A turn that searches *)

(** C5, as it is worded, is not what the code does: in the code the
    request that generates the query, the second call of the turn, quotes
    the user's line, which is the last message only while the user message
    is still in the conversation.  With the removal first it would quote
    the system message. *)
Lemma retrieval_sees_user_message :
  let E := fixed_world "True" three_blocks "page" in
  nth_error (trace (turn E "who won?" initial_state)) 1
    = Some (Chat (query_request "who won?")) /\
  nth_error (trace (turn_remove_first E "who won?" initial_state)) 1
    = Some (Chat (query_request (content sys_msgs.assistant_agent))) /\
  turn E "who won?" initial_state <> turn_remove_first E "who won?" initial_state.
Proof.
  intros E.
  assert (H1 : nth_error (trace (turn E "who won?" initial_state)) 1
               = Some (Chat (query_request "who won?"))) by reflexivity.
  assert (H2 : nth_error (trace (turn_remove_first E "who won?" initial_state)) 1
               = Some (Chat (query_request (content sys_msgs.assistant_agent))))
    by reflexivity.
  split; [exact H1|]. split; [exact H2|].
  intros Heq. rewrite Heq, H2 in H1. vm_compute in H1. discriminate H1.
Qed.

Section SearchTurn.

Variable E : env.

Lemma loop_result_found (ps : list pass) (t : string) :
  loop_result ps = Ok (Some t) ->
  exists p, In p ps /\ p_end p = Ok (Return t).
Proof.
  induction ps as [|p ps IH]; simpl; [discriminate|].
  destruct (p_end p) as [[t'| |rest]|x] eqn:Hp.
  - intros H. injection H as <-. eauto.
  - intros H. destruct (IH H) as (p' & Hin & Hp'). eauto.
  - intros H. destruct (IH H) as (p' & Hin & Hp'). eauto.
  - discriminate.
Qed.

(** The text that [ai_search] returns is never empty. *)
Lemma ai_search_found_nonempty (st : state) (t : string) :
  fst (ai_search E st) = Ok (Some t) -> truthy (Some t) = Some t.
Proof.
  unfold ai_search, try_except, bind.
  destruct (query_generator E st) as [[g|x] s1]; [|discriminate].
  cbv zeta.
  destruct (search_duckduckgo E (PyStr.remove_char PyStr.dq g) s1)
    as [[rs|x] s2]; [|discriminate].
  destruct (PyList.is_empty rs); [discriminate|].
  pose proof (attempts_loop_result E (seq 0 max_attempts) rs
                (PyStr.remove_char PyStr.dq g) s2) as Hloop.
  destruct (attempts E (seq 0 max_attempts) rs _ s2) as [[o|x] s3];
    simpl in *; [|discriminate].
  intros H. injection H as ->. symmetry in Hloop.
  apply loop_result_found in Hloop. destruct Hloop as (p & Hin & Hp).
  pose proof (passes_ok E (seq 0 max_attempts) rs
                (PyStr.remove_char PyStr.dq g) s2) as Hok.
  rewrite Forall_forall in Hok. destruct (Hok p Hin) as [_ Hne].
  rewrite Hp in Hne. destruct t; [congruence | reflexivity].
Qed.

Lemma convo_pop_last (c : list message) (m : message) (tr : list event) :
  convo_pop {| convo := c ++ [m]; trace := tr |}
  = (Ok tt, {| convo := c; trace := tr |}).
Proof.
  unfold convo_pop, PyList.pop, PyList.position, PyList.len. cbn [convo trace].
  rewrite length_app. simpl length.
  replace (-1 <? 0)%Z with true by reflexivity.
  replace (-1 + Z.of_nat (length c + 1))%Z with (Z.of_nat (length c)) by lia.
  replace (0 <=? Z.of_nat (length c))%Z with true by (symmetry; apply Z.leb_le; lia).
  replace (Z.of_nat (length c) <? Z.of_nat (length c + 1))%Z with true
    by (symmetry; apply Z.ltb_lt; lia).
  cbn [andb]. rewrite Nat2Z.id. unfold PyList.remove_at.
  rewrite firstn_app, firstn_all, Nat.sub_diag, skipn_app.
  rewrite skipn_all2 by lia.
  replace (S (length c) - length c) with 1 by lia.
  simpl. rewrite !app_nil_r. reflexivity.
Qed.

End SearchTurn.

(** C5, as the code has it.  For a line that is not blank, when
    [check_search_or_not] says yes and [ai_search] returns a text, the
    retrieval has run on the conversation that still ends with the user's
    line; after it that message is removed, one user message that holds
    the retrieved text and the line is appended in its place, and the
    reply is generated from this conversation. *)
Theorem search_turn (E : env) (prompt text : string) (st st1 st2 : state) :
  blank prompt = false ->
  check_search_or_not E {| convo := convo st ++ [user prompt]; trace := trace st |}
    = (Ok true, st1) ->
  ai_search E st1 = (Ok (Some text), st2) ->
  convo st1 = convo st ++ [user prompt] /\
  convo st2 = convo st ++ [user prompt] /\
  turn E prompt st =
  snd (stream_assistant_response E
         {| convo := convo st ++
                     [user ("SEARCH_RESULT: " ++ text ++ " " ++ sys_msgs.NL ++
                            "USER_PROMPT: " ++ prompt)%string];
            trace := trace st2 |}).
Proof.
  intros Hblank Hcheck Hsearch.
  assert (Hc1 : convo st1 = convo st ++ [user prompt]).
  { pose proof (keeps_check_search_or_not same_convo E
                  {| convo := convo st ++ [user prompt]; trace := trace st |}) as K.
    rewrite Hcheck in K. exact K. }
  assert (Hc2 : convo st2 = convo st ++ [user prompt]).
  { pose proof (keeps_ai_search same_convo E st1) as K.
    rewrite Hsearch in K. simpl in K. congruence. }
  split; [exact Hc1|]. split; [exact Hc2|].
  unfold turn, turn_body.
  destruct (PyStr.is_empty (PyStr.strip prompt)) eqn:Hs.
  { exfalso. apply PyStrFacts.strip_empty_blank in Hs. congruence. }
  unfold bind at 1. unfold convo_append at 1. cbv beta iota.
  unfold bind at 1. unfold bind at 1. rewrite Hcheck.
  unfold bind at 1. rewrite Hsearch.
  unfold bind at 1.
  replace st2 with {| convo := convo st ++ [user prompt]; trace := trace st2 |}
    by (destruct st2; simpl in *; congruence).
  rewrite convo_pop_last.
  rewrite (@ai_search_found_nonempty E st1 text) by (rewrite Hsearch; reflexivity).
  reflexivity.
Qed.

Lemma search_turn_witness :
  let E := fixed_world "True" three_blocks "page" in
  let st := initial_state in
  let asked_st := {| convo := convo st ++ [user "who won?"]; trace := trace st |} in
  let st1 := snd (check_search_or_not E asked_st) in
  let st2 := snd (ai_search E st1) in
  blank "who won?" = false /\
  check_search_or_not E asked_st = (Ok true, st1) /\
  ai_search E st1 = (Ok (Some "page"), st2) /\
  (convo st1 = convo st ++ [user "who won?"] /\
   convo st2 = convo st ++ [user "who won?"] /\
   turn E "who won?" st =
   snd (stream_assistant_response E
          {| convo := convo st ++
                      [user ("SEARCH_RESULT: " ++ "page" ++ " " ++ sys_msgs.NL ++
                             "USER_PROMPT: " ++ "who won?")%string];
             trace := trace st2 |})).
Proof.
  intros E st asked_st st1 st2.
  assert (Hb : blank "who won?" = false) by reflexivity.
  assert (Hc : check_search_or_not E asked_st = (Ok true, st1)) by reflexivity.
  assert (Hs : ai_search E st1 = (Ok (Some "page"), st2)) by reflexivity.
  split; [exact Hb|]. split; [exact Hc|]. split; [exact Hs|].
  exact (@search_turn E "who won?" "page" st st1 st2 Hb Hc Hs).
Defined.

(** ** The result page *)

Section ResultPage.

Lemma skipped_before_cons (n : nat) (b : result_block) (rest : list result_block) :
  skipped_before (S n) (b :: rest)
  = (if linkless b then 1 else 0) + skipped_before n rest.
Proof.
  unfold skipped_before. simpl. destruct (linkless b); reflexivity.
Qed.

(** What the loop over the blocks adds to [results]: at most as many
    candidates as there are indices left below 10; every one of them
    carries the index of its block, and that index is its position
    among the added candidates plus the number of blocks skipped before
    its block. *)
Lemma collect_results_spec (blocks : list result_block) :
  forall (i : nat) (results rs : list candidate),
    collect_results i blocks results = Ok rs ->
    exists added,
      rs = results ++ added /\
      length added <= 10 - i /\
      forall k c,
        nth_error added k = Some c ->
        i <= id c < 10 /\
        (exists b, nth_error blocks (id c - i) = Some b /\
                   title_href b = Some (Some (link c))) /\
        id c = i + k + skipped_before (id c - i) blocks.
Proof.
  induction blocks as [|b rest IH]; intros i results rs; cbn [collect_results].
  - intros H. injection H as <-. exists []. rewrite app_nil_r.
    split; [reflexivity|]. split; [simpl; lia|].
    intros k c Hk. destruct k; discriminate Hk.
  - destruct (10 <=? i) eqn:Hi.
    { intros H. injection H as <-. exists []. rewrite app_nil_r.
      split; [reflexivity|]. split; [simpl; lia|].
      intros k c Hk. destruct k; discriminate Hk. }
    apply Nat.leb_gt in Hi.
    destruct (title_href b) as [[href|]|] eqn:Hb; [| discriminate |].
    + intros H. apply IH in H. destruct H as (added & -> & Hlen & Hall).
      set (c0 := {| id := i; link := href;
                    search_description :=
                      match snippet_text b with
                      | Some text => PyStr.strip text
                      | None => "No description available"
                      end |}).
      exists (c0 :: added). rewrite <- app_assoc. split; [reflexivity|].
      split; [cbn [length]; lia|].
      intros k c Hk. destruct k as [|k].
      * cbn [nth_error] in Hk. assert (Hc : c = c0) by congruence.
        subst c. cbn [id link c0]. rewrite Nat.sub_diag.
        split; [lia|]. split; [exists b; auto|].
        unfold skipped_before. cbn [firstn filter length]. lia.
      * cbn [nth_error] in Hk.
        destruct (Hall k c Hk) as (Hid & (b' & Hb' & Hl) & Heq).
        split; [lia|].
        replace (id c - i) with (S (id c - S i)) by lia.
        split; [exists b'; auto|].
        rewrite skipped_before_cons. unfold linkless. rewrite Hb. lia.
    + intros H. apply IH in H. destruct H as (added & -> & Hlen & Hall).
      exists added. split; [reflexivity|]. split; [lia|].
      intros k c Hk. destruct (Hall k c Hk) as (Hid & (b' & Hb' & Hl) & Heq).
      split; [lia|].
      replace (id c - i) with (S (id c - S i)) by lia.
      split; [exists b'; auto|].
      rewrite skipped_before_cons. unfold linkless. rewrite Hb. lia.
Qed.

(** A title tag without [href] among the blocks the loop reaches makes
    [title_tag['href']] raise. *)
Lemma collect_results_raises (blocks : list result_block) :
  forall (i : nat) (results : list candidate) (b : result_block),
    In b (firstn (10 - i) blocks) ->
    title_href b = Some None ->
    exists x, collect_results i blocks results = Raise x.
Proof.
  induction blocks as [|b0 rest IH]; intros i results b Hin Hb.
  - rewrite firstn_nil in Hin. destruct Hin.
  - cbn [collect_results]. destruct (10 <=? i) eqn:Hi.
    { apply Nat.leb_le in Hi. replace (10 - i) with 0 in Hin by lia.
      destruct Hin. }
    apply Nat.leb_gt in Hi.
    replace (10 - i) with (S (10 - S i)) in Hin by lia.
    simpl in Hin. destruct Hin as [<- | Hin].
    + rewrite Hb. eauto.
    + destruct (title_href b0) as [[href|]|]; eauto.
Qed.

End ResultPage.

(** A page whose first block has no title link, followed by ten blocks
    that have one: the search returns nine candidates, not ten, and the
    first of them carries the index 1. *)
Lemma skipped_block_uses_slot_and_index :
  let E := fixed_world "0" (unlinked :: repeat (linked "a") 10) "page" in
  exists rs,
    fst (search_duckduckgo E "query" (asked "who won?")) = Ok rs /\
    length rs = 9 /\
    ~ id_is_rank rs.
Proof.
  intros E. eexists. split; [vm_compute; reflexivity|].
  split; [reflexivity|].
  intros H. specialize (H 0 _ eq_refl). discriminate H.
Qed.

(** C7, as the code has it.  [search_duckduckgo] always returns a list, of
    at most 10 candidates.  When the request fails the list is empty, and
    so it is when one of the first ten blocks has a title tag without a
    link target.  Otherwise every candidate comes from one of the first
    ten blocks: its index is the position of that block on the page, which
    holds its link, and this position is the rank of the candidate plus
    the number of blocks without a title link before the block. *)
Theorem search_duckduckgo_results (E : env) (q : string) (st : state) :
  exists rs,
    fst (search_duckduckgo E q st) = Ok rs /\
    length rs <= 10 /\
    match get_results E (length (trace st)) (search_url q) with
    | None => rs = []
    | Some blocks =>
        ((exists b, In b (firstn 10 blocks) /\ title_href b = Some None) -> rs = []) /\
        (forall k c,
            nth_error rs k = Some c ->
            id c < 10 /\
            (exists b, nth_error blocks (id c) = Some b /\
                       title_href b = Some (Some (link c))) /\
            id c = k + skipped_before (id c) blocks)
    end.
Proof.
  rewrite search_duckduckgo_run. cbn [fst].
  destruct (get_results E (length (trace st)) (search_url q)) as [blocks|].
  - destruct (collect_results 0 blocks []) as [rs|x] eqn:Hc.
    + exists rs. split; [reflexivity|].
      pose proof Hc as Hspec. apply collect_results_spec in Hspec.
      destruct Hspec as (added & -> & Hlen & Hall). simpl app in *.
      split; [lia|]. split.
      * intros (b & Hin & Hb).
        destruct (@collect_results_raises blocks 0 [] b Hin Hb) as (x & Hx).
        congruence.
      * intros k c Hk. destruct (Hall k c Hk) as (Hid & Hb & Heq).
        rewrite Nat.sub_0_r in Hb, Heq. split; [lia|]. split; [exact Hb|].
        simpl in Heq. exact Heq.
    + exists []. split; [reflexivity|]. split; [simpl; lia|].
      split; [reflexivity|]. intros k c Hk. destruct k; discriminate Hk.
  - exists []. split; [reflexivity|]. split; [simpl; lia|]. reflexivity.
Qed.

(** * Further properties *)

(** ** Selection *)

Section SelectionCalls.

Variable E : env.

Lemma calls_emit (st : state) (ev : event) (evs : list event) :
  calls (emit ev st) evs = calls st (ev :: evs).
Proof. unfold calls, emit. simpl. rewrite <- app_assoc. reflexivity. Qed.

Lemma emit_calls (st : state) (ev : event) : emit ev st = calls st [ev].
Proof. reflexivity. Qed.

Lemma calls_nil (st : state) : calls st [] = st.
Proof. unfold calls. rewrite app_nil_r. destruct st; reflexivity. Qed.

(** The retried selection makes its request up to [n] times, at least
    once when [n] is positive, and nothing else. *)
Lemma select_retry_calls (n : nat) (cs : list candidate) (msg : string) (st : state) :
  cs <> [] ->
  exists idx k,
    select_retry E n cs msg st
    = (Ok idx,
       calls st (repeat (Chat [sys_msgs.best_search_result_selector_agent; user msg]) k)) /\
    k <= n /\ (0 < n -> 0 < k) /\
    (idx <= PyList.len cs - 1)%Z.
Proof.
  intros Hcs. revert st. induction n as [|n IH]; intros st.
  - exists 0%Z, 0. simpl. rewrite calls_nil. repeat split; try lia.
    unfold PyList.len. destruct cs; [congruence|]. simpl length. lia.
  - cbn [select_retry]. unfold try_except, select_once, bind, call_chat.
    destruct (chat E (length (trace st)) _) as [reply|]; cbn [of_answer].
    + destruct (PyStr.int reply) as [index|]; cbn.
      * exists (Z.min index (PyList.len cs - 1)), 1. rewrite emit_calls.
        repeat split; lia.
      * destruct (IH (emit (Chat [sys_msgs.best_search_result_selector_agent; user msg]) st))
          as (idx & k & -> & Hk & _ & Hle).
        exists idx, (S k). rewrite calls_emit. repeat split; lia.
    + destruct (IH (emit (Chat [sys_msgs.best_search_result_selector_agent; user msg]) st))
        as (idx & k & -> & Hk & _ & Hle).
      exists idx, (S k). rewrite calls_emit. repeat split; lia.
Qed.


End SelectionCalls.

(** X1.  For a non-empty list of candidates and a conversation with a last
    message [m], [best_search_results] always returns, and what it returns
    is at most [len - 1] whatever the model replies.  It leaves the
    conversation alone and makes the same request once, twice or three
    times and no other call. *)
Theorem best_search_results_bounded (E : env) (cs : list candidate) (q : string)
        (st : state) (m : message) :
  cs <> [] ->
  PyList.index (convo st) (-1) = Some m ->
  exists idx k,
    best_search_results E cs q st
    = (Ok idx, calls st (repeat (Chat (selection_request E cs (content m) q)) k)) /\
    1 <= k <= 3 /\
    (idx <= PyList.len cs - 1)%Z.
Proof.
  intros Hcs Hm. unfold best_search_results.
  destruct cs as [|c cs]; [congruence|]. cbn [PyList.is_empty].
  unfold bind, convo_last_content. rewrite Hm.
  destruct (@select_retry_calls E 3 (c :: cs)
              (best_msg_of E (c :: cs) (content m) q) st Hcs)
    as (idx & k & Hrun & Hk & Hpos & Hle).
  exists idx, k. unfold selection_request. rewrite Hrun.
  repeat split; lia.
Qed.

Lemma best_search_results_bounded_witness :
  let E := fixed_world "7" three_blocks "page" in
  let st := asked "who won?" in
  three_candidates <> [] /\
  PyList.index (convo st) (-1) = Some (user "who won?") /\
  exists idx k,
    best_search_results E three_candidates "query" st
    = (Ok idx,
       calls st (repeat (Chat (selection_request E three_candidates
                                 (content (user "who won?")) "query")) k)) /\
    1 <= k <= 3 /\
    (idx <= PyList.len three_candidates - 1)%Z.
Proof.
  intros E st.
  assert (H1 : three_candidates <> []) by discriminate.
  assert (H2 : PyList.index (convo st) (-1) = Some (user "who won?")) by reflexivity.
  split; [exact H1|]. split; [exact H2|].
  exact (@best_search_results_bounded E three_candidates "query" st (user "who won?") H1 H2).
Defined.





(** ** Downloads *)

(** X4.  [scrape_page] never raises and makes exactly one call, the
    download of the page.  It returns a text only when the download gave a
    non-empty document and the extraction of that document returned one;
    a failed download, an empty document and a failed extraction all give
    [None]. *)
Theorem scrape_page_contract (E : env) (page_link : string) (st : state) :
  scrape_page E page_link st
  = (Ok (scraped E (fetch_url E (length (trace st)) page_link)),
     calls st [FetchUrl page_link]) /\
  (forall t,
      scraped E (fetch_url E (length (trace st)) page_link) = Some t ->
      exists d,
        fetch_url E (length (trace st)) page_link = Some (Some d) /\
        d <> EmptyString /\
        extract E d = Some (Some t)).
Proof.
  split.
  - unfold scrape_page, try_except, bind, call_fetch_url, lift, scraped.
    rewrite emit_calls.
    destruct (fetch_url E (length (trace st)) page_link) as [[d|]|];
      cbn [of_answer]; try reflexivity.
    destruct (PyStr.is_empty d); [reflexivity|].
    destruct (extract E d) as [r|]; reflexivity.
  - intros t. unfold scraped.
    destruct (fetch_url E (length (trace st)) page_link) as [[d|]|];
      try discriminate.
    destruct d as [|c d]; [discriminate|]. cbn [PyStr.is_empty].
    destruct (extract E (String c d)) as [[r|]|] eqn:Hx; try discriminate.
    intros H. injection H as ->. exists (String c d).
    split; [reflexivity|]. split; [discriminate | exact Hx].
Qed.

(** ** The cost of a retrieval *)

Section Costs.

Lemma model_calls_app (a b : list event) :
  model_calls (a ++ b) = model_calls a + model_calls b.
Proof. unfold model_calls. rewrite filter_app, length_app. reflexivity. Qed.

Lemma page_requests_app (a b : list event) :
  page_requests (a ++ b) = page_requests a + page_requests b.
Proof. unfold page_requests. rewrite filter_app, length_app. reflexivity. Qed.

Lemma downloads_app (a b : list event) :
  downloads (a ++ b) = downloads a + downloads b.
Proof. unfold downloads. rewrite filter_app, length_app. reflexivity. Qed.

Lemma spends_refl (st : state) : spends 0 0 0 st st.
Proof.
  split; [reflexivity|]. exists []. rewrite app_nil_r.
  repeat split; cbv; lia.
Qed.

Lemma spends_trans (c1 g1 f1 c2 g2 f2 : nat) (st1 st2 st3 : state) :
  spends c1 g1 f1 st1 st2 -> spends c2 g2 f2 st2 st3 ->
  spends (c1 + c2) (g1 + g2) (f1 + f2) st1 st3.
Proof.
  intros (Hc1 & e1 & Ht1 & Hm1 & Hg1 & Hf1) (Hc2 & e2 & Ht2 & Hm2 & Hg2 & Hf2).
  split; [congruence|]. exists (e1 ++ e2).
  rewrite Ht2, Ht1, app_assoc, model_calls_app, page_requests_app, downloads_app.
  repeat split; lia.
Qed.

Lemma spends_more (c g f c' g' f' : nat) (st st' : state) :
  spends c g f st st' -> c <= c' -> g <= g' -> f <= f' -> spends c' g' f' st st'.
Proof.
  intros (Hc & e & Ht & Hm & Hg & Hf) ? ? ?.
  split; [exact Hc|]. exists e. repeat split; try assumption; lia.
Qed.

Lemma costs_more (c g f c' g' f' : nat) {A} (m : M A) :
  costs c g f m -> c <= c' -> g <= g' -> f <= f' -> costs c' g' f' m.
Proof. intros H ? ? ? st. eapply spends_more; eauto. Qed.

Lemma costs_ret {A} (a : A) : costs 0 0 0 (ret a).
Proof. intros st. apply spends_refl. Qed.

Lemma costs_raise {A} (x : exn) : costs 0 0 0 (@raise A x).
Proof. intros st. apply spends_refl. Qed.

Lemma costs_lift {A} (o : outcome A) : costs 0 0 0 (lift o).
Proof. intros st. apply spends_refl. Qed.

Lemma costs_last : costs 0 0 0 convo_last_content.
Proof.
  intros st. unfold convo_last_content.
  destruct (PyList.index (convo st) (-1)); apply spends_refl.
Qed.

Lemma costs_bind (c1 g1 f1 c2 g2 f2 : nat) {A B} (m : M A) (k : A -> M B) :
  costs c1 g1 f1 m -> (forall a, costs c2 g2 f2 (k a)) ->
  costs (c1 + c2) (g1 + g2) (f1 + f2) (bind m k).
Proof.
  intros Hm Hk st. unfold bind. specialize (Hm st).
  destruct (m st) as [[a|x] st']; simpl in *.
  - eapply spends_trans; [exact Hm | apply Hk].
  - eapply spends_more; [exact Hm | lia | lia | lia].
Qed.

Lemma costs_try (c1 g1 f1 c2 g2 f2 : nat) {A} (m h : M A) :
  costs c1 g1 f1 m -> costs c2 g2 f2 h ->
  costs (c1 + c2) (g1 + g2) (f1 + f2) (try_except m h).
Proof.
  intros Hm Hh st. unfold try_except. specialize (Hm st).
  destruct (m st) as [[a|x] st']; simpl in *.
  - eapply spends_more; [exact Hm | lia | lia | lia].
  - eapply spends_trans; [exact Hm | apply Hh].
Qed.

Variable E : env.

Lemma costs_call_chat msgs : costs 1 0 0 (call_chat E msgs).
Proof.
  intros st. split; [reflexivity|]. exists [Chat msgs].
  repeat split; cbv; lia.
Qed.

Lemma costs_call_get_results url : costs 0 1 0 (call_get_results E url).
Proof.
  intros st. split; [reflexivity|]. exists [HttpGet url].
  repeat split; cbv; lia.
Qed.

Lemma costs_call_fetch_url l : costs 0 0 1 (call_fetch_url E l).
Proof.
  intros st. split; [reflexivity|]. exists [FetchUrl l].
  repeat split; cbv; lia.
Qed.

Lemma costs_check_search_or_not : costs 1 0 0 (check_search_or_not E).
Proof.
  unfold check_search_or_not.
  apply (@costs_try 1 0 0 0 0 0); [|apply costs_ret].
  apply (@costs_bind 0 0 0 1 0 0); [apply costs_last | intro last].
  apply (@costs_bind 1 0 0 0 0 0); [apply costs_call_chat | intro; apply costs_ret].
Qed.

Lemma costs_query_generator : costs 1 0 0 (query_generator E).
Proof.
  unfold query_generator.
  apply (@costs_bind 0 0 0 1 0 0); [apply costs_last | intro last]. cbv zeta.
  apply (@costs_try 1 0 0 0 0 0); [|apply costs_last].
  apply (@costs_bind 1 0 0 0 0 0); [apply costs_call_chat | intro; apply costs_ret].
Qed.

Lemma costs_search_duckduckgo q : costs 0 1 0 (search_duckduckgo E q).
Proof.
  unfold search_duckduckgo.
  apply (@costs_try 0 1 0 0 0 0); [|apply costs_ret].
  apply (@costs_bind 0 1 0 0 0 0); [apply costs_call_get_results | intro; apply costs_lift].
Qed.

Lemma costs_select_retry n cs msg : costs n 0 0 (select_retry E n cs msg).
Proof.
  induction n as [|n IH]; cbn [select_retry]; [apply costs_ret|].
  apply (@costs_try 1 0 0 n 0 0); [|exact IH].
  unfold select_once.
  apply (@costs_bind 1 0 0 0 0 0); [apply costs_call_chat | intro content].
  destruct (PyStr.int content); [apply costs_ret | apply costs_raise].
Qed.

Lemma costs_best_search_results cs q : costs 3 0 0 (best_search_results E cs q).
Proof.
  unfold best_search_results. destruct (PyList.is_empty cs).
  - eapply costs_more; [apply costs_ret | lia | lia | lia].
  - apply (@costs_bind 0 0 0 3 0 0); [apply costs_last | intro last].
    apply costs_select_retry.
Qed.

Lemma costs_scrape_page l : costs 0 0 1 (scrape_page E l).
Proof.
  unfold scrape_page.
  apply (@costs_try 0 0 1 0 0 0); [|apply costs_ret].
  apply (@costs_bind 0 0 1 0 0 0); [apply costs_call_fetch_url | intros [d|]];
    [|apply costs_ret].
  destruct (PyStr.is_empty d); [apply costs_ret | apply costs_lift].
Qed.

Lemma costs_contain_data_needed t q : costs 1 0 0 (contain_data_needed E t q).
Proof.
  unfold contain_data_needed.
  apply (@costs_bind 0 0 0 1 0 0); [apply costs_last | intro last]. cbv zeta.
  apply (@costs_try 1 0 0 0 0 0); [|apply costs_ret].
  apply (@costs_bind 1 0 0 0 0 0); [apply costs_call_chat | intro; apply costs_ret].
Qed.

Lemma costs_attempt_body cs q : costs 4 0 1 (attempt_body E cs q).
Proof.
  unfold attempt_body.
  apply (@costs_bind 3 0 0 1 0 1); [apply costs_best_search_results | intro idx].
  destruct (PyList.len cs <=? idx)%Z.
  { eapply costs_more; [apply costs_ret | lia | lia | lia]. }
  apply (@costs_bind 0 0 0 1 0 1); [apply costs_lift | intro result].
  apply (@costs_bind 0 0 1 1 0 0); [apply costs_scrape_page | intro page_text].
  cbv zeta.
  assert (Hpop : costs 0 0 0 (match PyList.pop cs idx with
                              | Some rest => ret (Popped rest)
                              | None => raise IndexError
                              end))
    by (destruct (PyList.pop cs idx); [apply costs_ret | apply costs_raise]).
  destruct (truthy page_text) as [t|].
  - apply (@costs_bind 1 0 0 0 0 0); [apply costs_contain_data_needed | intros [|]];
      [apply costs_ret | exact Hpop].
  - eapply costs_more; [exact Hpop | lia | lia | lia].
Qed.

Lemma costs_attempts range cs q :
  costs (4 * length range) 0 (length range) (attempts E range cs q).
Proof.
  revert cs. induction range as [|a range IH]; intros cs; cbn [attempts].
  - apply costs_ret.
  - eapply costs_more.
    + apply (@costs_bind 4 0 1 (4 * length range) 0 (length range));
        [apply costs_attempt_body|].
      intros [t| |rest]; [|apply IH|apply IH].
      eapply costs_more; [apply costs_ret | lia | lia | lia].
    + simpl length. lia.
    + lia.
    + simpl length. lia.
Qed.

Lemma costs_ai_search : costs 21 1 5 (ai_search E).
Proof.
  unfold ai_search.
  apply (@costs_try 21 1 5 0 0 0); [|apply costs_ret].
  apply (@costs_bind 1 0 0 20 1 5); [apply costs_query_generator | intro generated].
  cbv zeta.
  apply (@costs_bind 0 1 0 20 0 5); [apply costs_search_duckduckgo | intro rs].
  destruct (PyList.is_empty rs).
  - eapply costs_more; [apply costs_ret | lia | lia | lia].
  - apply (costs_attempts (seq 0 max_attempts) rs).
Qed.

Lemma try_except_ret_returns {A} (m : M A) (a : A) (st : state) :
  exists r st', try_except m (ret a) st = (Ok r, st').
Proof.
  unfold try_except. destruct (m st) as [[r|x] st']; eauto.
  eexists _, _. reflexivity.
Qed.

End Costs.

(** X5.  [ai_search] never raises.  Whatever the model and the network do,
    it returns; the conversation is as before; at most 21 model calls, one
    request for the result page and 5 page downloads have been added to
    the trace; and a text that it returns is not empty. *)
Theorem ai_search_contract (E : env) (st : state) :
  exists r st',
    ai_search E st = (Ok r, st') /\
    convo st' = convo st /\
    (exists evs,
        trace st' = trace st ++ evs /\
        model_calls evs <= 21 /\ page_requests evs <= 1 /\ downloads evs <= 5) /\
    (forall t, r = Some t -> t <> EmptyString).
Proof.
  destruct (@try_except_ret_returns _
              (bind (query_generator E)
                    (fun generated =>
                       let search_query := PyStr.remove_char PyStr.dq generated in
                       bind (search_duckduckgo E search_query)
                            (fun search_results =>
                               if PyList.is_empty search_results then ret None
                               else attempts E (seq 0 max_attempts) search_results
                                             search_query)))
              None st) as (r & st' & Hrun).
  change (ai_search E st = (Ok r, st')) in Hrun.
  exists r, st'. split; [exact Hrun|].
  pose proof (costs_ai_search E st) as Hcost. rewrite Hrun in Hcost.
  destruct Hcost as (Hc & Hevs). split; [exact Hc|]. split; [exact Hevs|].
  intros t ->.
  pose proof (@ai_search_found_nonempty E st t) as Hne.
  rewrite Hrun in Hne. specialize (Hne eq_refl).
  intros ->. discriminate Hne.
Qed.

(** ** The empty conversation *)

(** X6.  On an empty conversation [check_search_or_not] answers [False] and
    [ai_search] answers [None], both without any outbound call, because
    the read of the last message is inside their [try].  The functions
    that read it outside their [try] raise: [query_generator],
    [contain_data_needed] and, for a non-empty list,
    [best_search_results]. *)
Theorem empty_conversation (E : env) (st : state) :
  convo st = [] ->
  check_search_or_not E st = (Ok false, st) /\
  ai_search E st = (Ok None, st) /\
  query_generator E st = (Raise IndexError, st) /\
  (forall page q, contain_data_needed E page q st = (Raise IndexError, st)) /\
  (forall cs q, cs <> [] -> best_search_results E cs q st = (Raise IndexError, st)).
Proof.
  intros Hc.
  assert (Hlast : convo_last_content st = (Raise IndexError, st)).
  { unfold convo_last_content. rewrite Hc, PyListFacts.index_nil. reflexivity. }
  assert (Hq : query_generator E st = (Raise IndexError, st)).
  { unfold query_generator, bind. rewrite Hlast. reflexivity. }
  split; [|split; [|split; [exact Hq|split]]].
  - unfold check_search_or_not, try_except, bind. rewrite Hlast. reflexivity.
  - unfold ai_search, try_except, bind. rewrite Hq. reflexivity.
  - intros page q. unfold contain_data_needed, bind. rewrite Hlast. reflexivity.
  - intros cs q Hcs. unfold best_search_results.
    destruct cs; [congruence|]. cbn [PyList.is_empty].
    unfold bind. rewrite Hlast. reflexivity.
Qed.

Lemma empty_conversation_witness :
  let E := fixed_world "True" three_blocks "page" in
  let st := {| convo := []; trace := [] |} in
  convo st = [] /\
  (check_search_or_not E st = (Ok false, st) /\
   ai_search E st = (Ok None, st) /\
   query_generator E st = (Raise IndexError, st) /\
   (forall page q, contain_data_needed E page q st = (Raise IndexError, st)) /\
   (forall cs q, cs <> [] -> best_search_results E cs q st = (Raise IndexError, st))).
Proof.
  intros E st. split; [reflexivity|].
  apply (@empty_conversation E st). reflexivity.
Defined.

(** ** The result page, block by block *)

Section ResultList.

(** The loop over the blocks, in closed form: it raises when one of the
    blocks it reaches has a title tag without [href]; otherwise it adds
    the candidates of the blocks it reaches, in order. *)
Lemma collect_results_closed (blocks : list result_block) :
  forall (i : nat) (results : list candidate),
    collect_results i blocks results
    = if existsb hrefless (firstn (10 - i) blocks)
      then Raise KeyError
      else Ok (results ++ flat_map candidate_of (combine (seq i (10 - i)) blocks)).
Proof.
  induction blocks as [|b rest IH]; intros i results; cbn [collect_results].
  - rewrite firstn_nil, combine_nil, app_nil_r. reflexivity.
  - destruct (10 <=? i) eqn:Hi.
    { apply Nat.leb_le in Hi. replace (10 - i) with 0 by lia.
      simpl. rewrite app_nil_r. reflexivity. }
    apply Nat.leb_gt in Hi.
    replace (10 - i) with (S (10 - S i)) by lia.
    cbn [firstn existsb seq combine flat_map]. unfold hrefless at 1.
    unfold candidate_of at 1.
    destruct (title_href b) as [[href|]|]; cbn [orb].
    + rewrite IH, <- app_assoc. reflexivity.
    + reflexivity.
    + rewrite IH. reflexivity.
Qed.

(** The positions of the candidates of a run of blocks go up. *)
Lemma candidate_ids_sorted (blocks : list result_block) :
  forall (i n : nat),
    StronglySorted (fun a b => id a < id b)
                   (flat_map candidate_of (combine (seq i n) blocks)) /\
    Forall (fun c => i <= id c)
           (flat_map candidate_of (combine (seq i n) blocks)).
Proof.
  induction blocks as [|b rest IH]; intros i n.
  - rewrite combine_nil. split; constructor.
  - destruct n as [|n]; [split; constructor|].
    cbn [seq combine flat_map].
    destruct (IH (S i) n) as [Hs Hf].
    assert (Hf' : Forall (fun c => i <= id c)
                         (flat_map candidate_of (combine (seq (S i) n) rest))).
    { eapply Forall_impl; [|exact Hf]. simpl. intros c Hc. lia. }
    unfold candidate_of at 1 3.
    destruct (title_href b) as [[href|]|]; cbn [app].
    + split.
      * constructor; [exact Hs|]. eapply Forall_impl; [|exact Hf].
        simpl. intros c Hc. lia.
      * constructor; [simpl; lia | exact Hf'].
    + split; assumption.
    + split; assumption.
Qed.

End ResultList.

(** X7.  What [search_duckduckgo] returns, in closed form.  It never
    raises and makes exactly one request.  When the request fails, or one
    of the first ten blocks has a title tag without [href], the list is
    empty.  Otherwise the list holds, in page order, one candidate for
    every block among the first ten that has a title link: its index is
    the position of the block, its link the [href], its description the
    stripped snippet text or "No description available". *)
Theorem search_duckduckgo_closed (E : env) (q : string) (st : state) :
  search_duckduckgo E q st
  = (Ok match get_results E (length (trace st)) (search_url q) with
        | Some blocks =>
            if existsb hrefless (firstn 10 blocks) then []
            else flat_map candidate_of (combine (seq 0 10) blocks)
        | None => []
        end,
     calls st [HttpGet (search_url q)]).
Proof.
  rewrite search_duckduckgo_run, emit_calls.
  destruct (get_results E (length (trace st)) (search_url q)) as [blocks|];
    [|reflexivity].
  rewrite collect_results_closed. cbn [Nat.sub].
  destruct (existsb hrefless (firstn 10 blocks)); reflexivity.
Qed.

(** X8.  The indices of the candidates that [search_duckduckgo] returns go
    up strictly along the list; no two candidates of one result list carry
    the same index. *)
Theorem search_duckduckgo_ids_increase (E : env) (q : string) (st : state) :
  exists rs,
    fst (search_duckduckgo E q st) = Ok rs /\
    StronglySorted (fun a b => id a < id b) rs /\
    NoDup (map (@id) rs).
Proof.
  rewrite search_duckduckgo_closed. cbn [fst]. eexists. split; [reflexivity|].
  assert (Hs : StronglySorted (fun a b => id a < id b)
                 match get_results E (length (trace st)) (search_url q) with
                 | Some blocks =>
                     if existsb hrefless (firstn 10 blocks) then []
                     else flat_map candidate_of (combine (seq 0 10) blocks)
                 | None => []
                 end).
  { destruct (get_results E (length (trace st)) (search_url q)) as [blocks|];
      [|constructor].
    destruct (existsb hrefless (firstn 10 blocks)); [constructor|].
    apply candidate_ids_sorted. }
  split; [exact Hs|].
  induction Hs as [|c rs Hs IH Hall]; simpl; constructor; [|exact IH].
  intros Hin. apply in_map_iff in Hin. destruct Hin as (c' & Heq & Hin).
  rewrite Forall_forall in Hall. specialize (Hall c' Hin). lia.
Qed.

(** ** A pass that finds the page *)

(** X9.  A pass of the retrieval loop returns a text only when that text
    was scraped from the page of one of the current candidates and
    [contain_data_needed] answered [True] for it. *)
Theorem attempt_body_found (E : env) (cs : list candidate) (q : string)
        (st st' : state) (t : string) :
  attempt_body E cs q st = (Ok (Return t), st') ->
  exists c st1 st2,
    In c cs /\
    scrape_page E (link c) st1 = (Ok (Some t), st2) /\
    contain_data_needed E t q st2 = (Ok true, st') /\
    t <> EmptyString.
Proof.
  unfold attempt_body, bind.
  destruct (best_search_results E cs q st) as [[idx|x] st1]; [|discriminate].
  destruct (PyList.len cs <=? idx)%Z; [discriminate|].
  unfold lift.
  destruct (PyList.index cs idx) as [c|] eqn:Hc; [|discriminate].
  destruct (scrape_page E (link c) st1) as [[pt|x] st2] eqn:Hs; [|discriminate].
  cbv zeta.
  assert (Hpop : forall s,
             match PyList.pop cs idx with
             | Some rest => ret (Popped rest)
             | None => raise IndexError
             end s <> (Ok (Return t), st')).
  { intros s. destruct (PyList.pop cs idx); discriminate. }
  destruct (truthy pt) as [t'|] eqn:Ht; [|intros H; destruct (Hpop _ H)].
  destruct (contain_data_needed E t' q st2) as [[[|]|x] st3] eqn:Hr;
    [|intros H; destruct (Hpop _ H)|discriminate].
  intros H. injection H as -> ->.
  exists c, st1, st2.
  assert (Hpt : pt = Some t).
  { destruct pt as [s|]; [|discriminate Ht]. simpl in Ht.
    destruct (PyStr.is_empty s); [discriminate Ht | congruence]. }
  subst pt. repeat split; try assumption.
  - unfold PyList.index in Hc.
    destruct (PyList.position cs idx); [|discriminate Hc].
    eapply nth_error_In. exact Hc.
  - eapply truthy_nonempty. exact Ht.
Qed.

Lemma attempt_body_found_witness :
  let E := fixed_world "True" three_blocks "page" in
  let st := asked "who won?" in
  let st' := snd (attempt_body E three_candidates "query" st) in
  attempt_body E three_candidates "query" st = (Ok (Return "page"), st') /\
  exists c st1 st2,
    In c three_candidates /\
    scrape_page E (link c) st1 = (Ok (Some "page"), st2) /\
    contain_data_needed E "page" "query" st2 = (Ok true, st') /\
    "page" <> EmptyString.
Proof.
  intros E st st'.
  assert (H : attempt_body E three_candidates "query" st = (Ok (Return "page"), st'))
    by reflexivity.
  split; [exact H|].
  exact (@attempt_body_found E three_candidates "query" st st' "page" H).
Defined.

(** ** The reply *)

(** X10.  [stream_assistant_response] never raises and makes exactly one
    call, the streamed chat over the whole conversation.  When the stream
    comes through, one assistant message is appended and it holds the
    chunks joined in order; when the call fails, the conversation is left
    as it is. *)
Theorem stream_assistant_response_contract (E : env) (st : state) :
  stream_assistant_response E st = (Ok tt, replied E st) /\
  trace (replied E st) = trace st ++ [ChatStream (convo st)] /\
  (forall chunks,
      chat_stream E (length (trace st)) (convo st) = Some chunks ->
      convo (replied E st) = convo st ++ [assistant (String.concat "" chunks)]) /\
  (chat_stream E (length (trace st)) (convo st) = None ->
   convo (replied E st) = convo st).
Proof.
  unfold replied.
  split; [|split; [|split]].
  - unfold stream_assistant_response, try_except, bind, get_convo, call_chat_stream,
      convo_append, assistant.
    destruct (chat_stream E (length (trace st)) (convo st)); reflexivity.
  - destruct (chat_stream E (length (trace st)) (convo st)); reflexivity.
  - intros chunks ->. reflexivity.
  - intros ->. reflexivity.
Qed.

(** ** A turn of the loop *)

Section Turns.

Variable E : env.

Lemma index_last (c : list message) (m : message) :
  PyList.index (c ++ [m]) (-1) = Some m.
Proof.
  unfold PyList.index, PyList.position, PyList.len.
  rewrite length_app. simpl length.
  replace (-1 <? 0)%Z with true by reflexivity.
  replace (-1 + Z.of_nat (length c + 1))%Z with (Z.of_nat (length c)) by lia.
  replace (0 <=? Z.of_nat (length c))%Z with true by (symmetry; apply Z.leb_le; lia).
  replace (Z.of_nat (length c) <? Z.of_nat (length c + 1))%Z with true
    by (symmetry; apply Z.ltb_lt; lia).
  cbn [andb]. rewrite Nat2Z.id.
  rewrite nth_error_app2 by lia. rewrite Nat.sub_diag. reflexivity.
Qed.

(** The decision about the search, right after the user's line has been
    appended: one model call that quotes the line, and a boolean. *)
Lemma check_after_append (c : list message) (tr : list event) (prompt : string) :
  exists b,
    check_search_or_not E {| convo := c ++ [user prompt]; trace := tr |}
    = (Ok b,
       {| convo := c ++ [user prompt];
          trace := tr ++ [Chat [sys_msgs.should_search_decision_agent; user prompt]] |}).
Proof.
  unfold check_search_or_not, try_except, bind, convo_last_content, call_chat.
  cbn [convo trace]. rewrite index_last. cbn [content user convo trace].
  destruct (chat E (length tr) _); cbn [of_answer]; eexists; reflexivity.
Qed.

Lemma ai_search_returns (st : state) :
  exists r st',
    ai_search E st = (Ok r, st') /\ convo st' = convo st /\
    spends 21 1 5 st st'.
Proof.
  destruct (@try_except_ret_returns _
              (bind (query_generator E)
                    (fun generated =>
                       let search_query := PyStr.remove_char PyStr.dq generated in
                       bind (search_duckduckgo E search_query)
                            (fun search_results =>
                               if PyList.is_empty search_results then ret None
                               else attempts E (seq 0 max_attempts) search_results
                                             search_query)))
              None st) as (r & st' & Hrun).
  change (ai_search E st = (Ok r, st')) in Hrun.
  exists r, st'. split; [exact Hrun|].
  pose proof (costs_ai_search E st) as Hcost. rewrite Hrun in Hcost.
  split; [apply Hcost | exact Hcost].
Qed.

Lemma stream_run (st : state) :
  stream_assistant_response E st = (Ok tt, replied E st).
Proof.
  unfold replied, stream_assistant_response, try_except, bind, get_convo,
    call_chat_stream, convo_append, assistant.
  destruct (chat_stream E (length (trace st)) (convo st)); reflexivity.
Qed.

(** A turn on a line that is not blank, step by step. *)
Lemma turn_run (prompt : string) (st : state) :
  blank prompt = false ->
  exists b,
    let st1 := {| convo := convo st ++ [user prompt];
                  trace := trace st ++
                           [Chat [sys_msgs.should_search_decision_agent; user prompt]] |} in
    check_search_or_not E {| convo := convo st ++ [user prompt]; trace := trace st |}
    = (Ok b, st1) /\
    if b
    then exists r st2,
        ai_search E st1 = (Ok r, st2) /\
        spends 21 1 5 st1 st2 /\
        turn E prompt st
        = replied E {| convo := convo st ++ [user (search_prompt r prompt)];
                       trace := trace st2 |}
    else turn E prompt st = replied E st1.
Proof.
  intros Hblank.
  destruct (check_after_append (convo st) (trace st) prompt) as (b & Hcheck).
  exists b. cbv zeta. split; [exact Hcheck|].
  assert (Hs : PyStr.is_empty (PyStr.strip prompt) = false).
  { destruct (PyStr.is_empty (PyStr.strip prompt)) eqn:Hs; [|reflexivity].
    apply PyStrFacts.strip_empty_blank in Hs. congruence. }
  destruct b.
  - set (st1 := {| convo := convo st ++ [user prompt];
                   trace := trace st ++
                            [Chat [sys_msgs.should_search_decision_agent; user prompt]] |}).
    destruct (ai_search_returns st1) as (r & st2 & Hrun & Hc & Hcost).
    exists r, st2. split; [exact Hrun|]. split; [exact Hcost|].
    unfold turn, turn_body. rewrite Hs.
    unfold bind at 1. unfold convo_append at 1. cbv beta iota.
    unfold bind at 1. unfold bind at 1. rewrite Hcheck.
    unfold bind at 1. fold st1. rewrite Hrun. unfold bind at 1.
    replace st2 with {| convo := convo st ++ [user prompt]; trace := trace st2 |}
      by (destruct st2; simpl in *; congruence).
    rewrite convo_pop_last. cbv zeta. fold (search_prompt r prompt).
    unfold convo_append. cbn [convo trace].
    exact (f_equal snd (stream_run _)).
  - unfold turn, turn_body. rewrite Hs.
    unfold bind at 1. unfold convo_append at 1. cbv beta iota.
    unfold bind at 1. unfold bind at 1. rewrite Hcheck.
    cbn [ret]. exact (f_equal snd (stream_run _)).
Qed.

End Turns.

Section TurnGrowth.

Variable E : env.

Lemma replied_convo (st : state) :
  convo (replied E st) = convo st \/
  exists a, convo (replied E st) = convo st ++ [assistant a].
Proof.
  unfold replied. destruct (chat_stream E (length (trace st)) (convo st));
    [right; eexists; reflexivity | left; reflexivity].
Qed.

Lemma replied_trace (st : state) :
  trace (replied E st) = trace st ++ [ChatStream (convo st)].
Proof.
  unfold replied. destruct (chat_stream E (length (trace st)) (convo st)); reflexivity.
Qed.

(** What a turn on a line that is not blank adds: one user message, and
    the assistant's reply when the stream came through; the calls are
    the decision, at most one retrieval, and the reply. *)
Lemma turn_adds (prompt : string) (st : state) :
  blank prompt = false ->
  exists u evs,
    (convo (turn E prompt st) = convo st ++ [user u] \/
     exists a, convo (turn E prompt st) = convo st ++ [user u; assistant a]) /\
    (u = prompt \/ exists r, u = search_prompt r prompt) /\
    trace (turn E prompt st) = trace st ++ evs /\
    model_calls evs <= 23 /\ page_requests evs <= 1 /\ downloads evs <= 5.
Proof.
  intros Hblank. destruct (turn_run E prompt st Hblank) as (b & Hcheck & Hb).
  cbv zeta in Hcheck, Hb. destruct b.
  - destruct Hb as (r & st2 & Hrun & (Hc & evs & Ht & Hm & Hg & Hf) & ->).
    cbn [trace] in Ht.
    exists (search_prompt r prompt),
      (Chat [sys_msgs.should_search_decision_agent; user prompt] :: evs ++
       [ChatStream (convo st ++ [user (search_prompt r prompt)])]).
    split.
    { destruct (replied_convo
                  {| convo := convo st ++ [user (search_prompt r prompt)];
                     trace := trace st2 |}) as [H | (a & H)];
        rewrite H; cbn [convo]; [left; reflexivity | right; exists a].
      rewrite <- app_assoc. reflexivity. }
    split; [right; eauto|].
    rewrite replied_trace. cbn [convo trace]. rewrite Ht.
    split; [rewrite <- !app_assoc; reflexivity|].
    change (Chat [sys_msgs.should_search_decision_agent; user prompt] :: evs ++
            [ChatStream (convo st ++ [user (search_prompt r prompt)])])
      with ([Chat [sys_msgs.should_search_decision_agent; user prompt]] ++ evs ++
            [ChatStream (convo st ++ [user (search_prompt r prompt)])]).
    rewrite !model_calls_app, !page_requests_app, !downloads_app.
    change (model_calls [Chat [sys_msgs.should_search_decision_agent; user prompt]])
      with 1.
    change (model_calls [ChatStream (convo st ++ [user (search_prompt r prompt)])])
      with 1.
    change (page_requests [Chat [sys_msgs.should_search_decision_agent; user prompt]])
      with 0.
    change (page_requests [ChatStream (convo st ++ [user (search_prompt r prompt)])])
      with 0.
    change (downloads [Chat [sys_msgs.should_search_decision_agent; user prompt]])
      with 0.
    change (downloads [ChatStream (convo st ++ [user (search_prompt r prompt)])])
      with 0.
    repeat split; lia.
  - rewrite Hb.
    exists prompt, [Chat [sys_msgs.should_search_decision_agent; user prompt];
                    ChatStream (convo st ++ [user prompt])].
    split.
    { destruct (replied_convo
                  {| convo := convo st ++ [user prompt];
                     trace := trace st ++
                              [Chat [sys_msgs.should_search_decision_agent;
                                     user prompt]] |}) as [H | (a & H)];
        rewrite H; cbn [convo]; [left; reflexivity | right; exists a].
      rewrite <- app_assoc. reflexivity. }
    split; [left; reflexivity|].
    rewrite replied_trace. cbn [convo trace].
    split; [rewrite <- app_assoc; reflexivity|].
    repeat split; cbv; lia.
Qed.

Lemma turn_blank (prompt : string) (st : state) :
  blank prompt = true -> turn E prompt st = st.
Proof.
  intros Hb. unfold turn, turn_body.
  rewrite PyStrFacts.strip_blank by exact Hb. reflexivity.
Qed.

End TurnGrowth.







Section MainLoop.

Variable E : env.

(** What any turn adds, blank line or not. *)
Lemma turn_any (prompt : string) (st : state) :
  exists added evs,
    convo (turn E prompt st) = convo st ++ added /\
    length added <= 2 /\ Forall chat_role added /\
    trace (turn E prompt st) = trace st ++ evs /\
    model_calls evs <= 23 /\ page_requests evs <= 1 /\ downloads evs <= 5.
Proof.
  destruct (blank prompt) eqn:Hb.
  - rewrite (turn_blank E prompt st Hb). exists [], [].
    rewrite !app_nil_r. repeat split; try constructor; cbv; lia.
  - destruct (turn_adds E prompt st Hb)
      as (u & evs & Hconvo & _ & Ht & Hm & Hg & Hf).
    destruct Hconvo as [H | (a & H)].
    + exists [user u], evs. rewrite H.
      repeat split; try assumption; [simpl; lia|].
      constructor; [left; reflexivity | constructor].
    + exists [user u; assistant a], evs. rewrite H.
      repeat split; try assumption; [simpl; lia|].
      constructor; [left; reflexivity|].
      constructor; [right; reflexivity | constructor].
Qed.

End MainLoop.

(** X14.  Over any sequence of input lines the loop only appends to the
    conversation: what was there stays in place, so the system message
    stays first; every message added has the role user or assistant, and
    at most two are added per line.  The calls are bounded by line too: at
    most 23 model calls, one request for a result page and 5 page
    downloads for each. *)
Theorem main_only_appends (E : env) (lines : list string) (st : state) :
  exists added evs,
    convo (main E lines st) = convo st ++ added /\
    length added <= 2 * length lines /\
    Forall chat_role added /\
    trace (main E lines st) = trace st ++ evs /\
    model_calls evs <= 23 * length lines /\
    page_requests evs <= length lines /\
    downloads evs <= 5 * length lines.
Proof.
  revert st. induction lines as [|prompt rest IH]; intros st.
  - exists [], []. simpl. rewrite !app_nil_r.
    repeat split; try constructor; cbv; lia.
  - cbn [main].
    destruct (turn_any E prompt st)
      as (a1 & e1 & Hc1 & Hl1 & Hr1 & Ht1 & Hm1 & Hg1 & Hf1).
    destruct (IH (turn E prompt st))
      as (a2 & e2 & Hc2 & Hl2 & Hr2 & Ht2 & Hm2 & Hg2 & Hf2).
    exists (a1 ++ a2), (e1 ++ e2).
    rewrite Hc2, Hc1, Ht2, Ht1, !app_assoc.
    rewrite length_app, model_calls_app, page_requests_app, downloads_app.
    cbn [length].
    repeat split; try lia.
    apply Forall_app. split; assumption.
Qed.

(** X15.  Blank lines do not count: the loop over a sequence of lines ends
    in the same state as the loop over the lines among them that are not
    blank. *)
Theorem main_skips_blank_lines (E : env) (lines : list string) (st : state) :
  main E lines st = main E (filter (fun l => negb (blank l)) lines) st.
Proof.
  revert st. induction lines as [|prompt rest IH]; intros st; [reflexivity|].
  cbn [main filter]. destruct (blank prompt) eqn:Hb; cbn [negb].
  - rewrite (turn_blank E prompt st Hb). apply IH.
  - cbn [main]. apply IH.
Qed.

(** ** The calls of the judges *)

Section JudgeCalls.

Variable E : env.

Lemma check_search_or_not_run (st : state) (m : message) :
  PyList.index (convo st) (-1) = Some m ->
  check_search_or_not E st
  = (Ok (verdict (chat E (length (trace st)) (decision_request (content m)))),
     calls st [Chat (decision_request (content m))]).
Proof.
  intros Hm.
  unfold check_search_or_not, try_except, bind, convo_last_content, call_chat,
    decision_request.
  rewrite Hm. rewrite emit_calls.
  destruct (chat E (length (trace st)) _); reflexivity.
Qed.

Lemma contain_data_needed_run (page q : string) (st : state) (m : message) :
  PyList.index (convo st) (-1) = Some m ->
  contain_data_needed E page q st
  = (Ok (verdict (chat E (length (trace st))
                       (validation_request page (content m) q))),
     calls st [Chat (validation_request page (content m) q)]).
Proof.
  intros Hm.
  unfold contain_data_needed, try_except, bind, convo_last_content, call_chat,
    validation_request.
  rewrite Hm. cbv zeta. rewrite emit_calls.
  destruct (chat E (length (trace st)) _); reflexivity.
Qed.

Lemma verdict_true (answer : option string) :
  verdict answer = true -> exists reply, answer = Some reply /\ says_true reply.
Proof.
  destruct answer as [reply|]; simpl; [|discriminate].
  intros H. exists reply. split; [reflexivity|].
  apply contains_true_says_true. exact H.
Qed.

End JudgeCalls.

(** X16.  With a last message [m] in the conversation, each judge makes
    exactly one model call and leaves the conversation alone, whatever the
    answer, and it answers [False] when the call fails.
    [check_search_or_not] sends the content of [m] as it is;
    [contain_data_needed] sends one message made of the whole page text,
    the content of [m] and the search query. *)
Theorem judges_call_once (E : env) (st : state) (m : message) :
  PyList.index (convo st) (-1) = Some m ->
  (snd (check_search_or_not E st) = calls st [Chat (decision_request (content m))] /\
   (chat E (length (trace st)) (decision_request (content m)) = None ->
    fst (check_search_or_not E st) = Ok false)) /\
  (forall page q,
      snd (contain_data_needed E page q st)
      = calls st [Chat (validation_request page (content m) q)] /\
      (chat E (length (trace st)) (validation_request page (content m) q) = None ->
       fst (contain_data_needed E page q st) = Ok false)).
Proof.
  intros Hm. split; [|intros page q].
  - rewrite (check_search_or_not_run E st Hm). cbn [fst snd].
    split; [reflexivity|]. intros ->. reflexivity.
  - rewrite (contain_data_needed_run E page q st Hm). cbn [fst snd].
    split; [reflexivity|]. intros ->. reflexivity.
Qed.

Lemma judges_call_once_witness :
  let E := fixed_world "False" three_blocks "page" in
  let st := asked "who won?" in
  let m := user "who won?" in
  PyList.index (convo st) (-1) = Some m /\
  ((snd (check_search_or_not E st) = calls st [Chat (decision_request (content m))] /\
    (chat E (length (trace st)) (decision_request (content m)) = None ->
     fst (check_search_or_not E st) = Ok false)) /\
   (forall page q,
       snd (contain_data_needed E page q st)
       = calls st [Chat (validation_request page (content m) q)] /\
       (chat E (length (trace st)) (validation_request page (content m) q) = None ->
        fst (contain_data_needed E page q st) = Ok false))).
Proof.
  intros E st m.
  assert (H : PyList.index (convo st) (-1) = Some m) by reflexivity.
  split; [exact H|].
  exact (@judges_call_once E st m H).
Defined.

(** ** The page that is found *)

Section Found.

Variable E : env.

Lemma remove_at_incl {A} (k : nat) (l : list A) : incl (PyList.remove_at k l) l.
Proof.
  unfold PyList.remove_at. intros x Hx. apply in_app_or in Hx.
  rewrite <- (firstn_skipn k l). apply in_or_app.
  destruct Hx as [Hx | Hx]; [left; exact Hx | right].
  clear -Hx. revert l Hx. induction k as [|k IH]; intros l Hx.
  - destruct l; simpl in *; [exact Hx | right; exact Hx].
  - destruct l; simpl in *; [exact Hx | apply IH; exact Hx].
Qed.

Lemma pop_incl {A} (l rest : list A) (i : Z) :
  PyList.pop l i = Some rest -> incl rest l.
Proof.
  unfold PyList.pop. destruct (PyList.position l i); [|discriminate].
  intros H. injection H as <-. apply remove_at_incl.
Qed.

Lemma attempt_body_popped_incl (cs rest : list candidate) (q : string)
      (st st' : state) :
  attempt_body E cs q st = (Ok (Popped rest), st') -> incl rest cs.
Proof.
  unfold attempt_body, bind.
  destruct (best_search_results E cs q st) as [[idx|x] st1]; [|discriminate].
  destruct (PyList.len cs <=? idx)%Z; [discriminate|].
  unfold lift. destruct (PyList.index cs idx) as [c|]; [|discriminate].
  destruct (scrape_page E (link c) st1) as [[pt|x] st2]; [|discriminate].
  cbv zeta.
  assert (Hpop : forall s,
             match PyList.pop cs idx with
             | Some rest0 => ret (Popped rest0)
             | None => raise IndexError
             end s = (Ok (Popped rest), st') -> incl rest cs).
  { intros s. destruct (PyList.pop cs idx) as [rest0|] eqn:Hp; [|discriminate].
    intros H. injection H as <- _. eapply pop_incl. exact Hp. }
  destruct (truthy pt) as [t|]; [|apply Hpop].
  destruct (contain_data_needed E t q st2) as [[[|]|x] st3];
    [discriminate | apply Hpop | discriminate].
Qed.

(** A loop that returns a text has run a pass, over candidates taken from
    the given ones, that returned it, and has stopped there. *)
Lemma attempts_found (range : list nat) (cs : list candidate) (q : string)
      (st st' : state) (t : string) :
  attempts E range cs q st = (Ok (Some t), st') ->
  exists cs' s,
    incl cs' cs /\ attempt_body E cs' q s = (Ok (Return t), st') /\
    convo s = convo st.
Proof.
  revert cs st. induction range as [|a range IH]; intros cs st; cbn [attempts].
  - discriminate.
  - unfold bind.
    pose proof (keeps_attempt_body same_convo E cs q st) as Hk.
    destruct (attempt_body E cs q st) as [[[t'| |rest]|x] st1] eqn:Hb;
      simpl in Hk.
    + intros H. injection H as -> <-. exists cs, st.
      split; [apply incl_refl|]. split; [exact Hb | reflexivity].
    + intros H. destruct (IH cs st1 H) as (cs' & s & Hi & Hr & Hc).
      exists cs', s. split; [exact Hi|]. split; [exact Hr | congruence].
    + intros H. destruct (IH rest st1 H) as (cs' & s & Hi & Hr & Hc).
      exists cs', s. split; [|split; [exact Hr | congruence]].
      eapply incl_tran; [exact Hi|].
      eapply attempt_body_popped_incl. exact Hb.
    + discriminate.
Qed.

End Found.

(** X17.  A text that [ai_search] returns is never made up: it was scraped
    from the page of one of the candidates that the search returned, the
    model answered the relevance request for it with a reply that holds
    "true", and that request is the last call of the retrieval. *)
Theorem ai_search_found (E : env) (st st' : state) (t : string) :
  ai_search E st = (Ok (Some t), st') ->
  exists m generated s0 rs s1 c s2 s3 reply,
    PyList.index (convo st) (-1) = Some m /\
    query_generator E st = (Ok generated, s0) /\
    let q := PyStr.remove_char PyStr.dq generated in
    search_duckduckgo E q s0 = (Ok rs, s1) /\
    In c rs /\
    scrape_page E (link c) s2 = (Ok (Some t), s3) /\
    chat E (length (trace s3)) (validation_request t (content m) q) = Some reply /\
    says_true reply /\
    st' = calls s3 [Chat (validation_request t (content m) q)].
Proof.
  unfold ai_search, try_except, bind.
  pose proof (keeps_query_generator same_convo E st) as K0.
  destruct (query_generator E st) as [[generated|x] s0] eqn:Hq; [|discriminate].
  cbv zeta.
  pose proof (keeps_search_duckduckgo same_convo E
                (PyStr.remove_char PyStr.dq generated) s0) as K1.
  destruct (search_duckduckgo E (PyStr.remove_char PyStr.dq generated) s0)
    as [[rs|x] s1] eqn:Hs; [|discriminate].
  destruct (PyList.is_empty rs); [discriminate|].
  destruct (attempts E (seq 0 max_attempts) rs
                     (PyStr.remove_char PyStr.dq generated) s1)
    as [[o|x] s4] eqn:Ha; [|discriminate].
  intros H. injection H as -> ->.
  apply attempts_found in Ha. destruct Ha as (cs' & s & Hincl & Hbody & Hcs).
  pose proof Hq as Hq'. apply query_generator_run in Hq'.
  destruct Hq' as (m & Hm & _ & _).
  pose proof (keeps_attempt_body same_convo E cs'
                (PyStr.remove_char PyStr.dq generated) s) as K5.
  rewrite Hbody in K5.
  apply attempt_body_found in Hbody.
  destruct Hbody as (c & s2 & s3 & Hin & Hscrape & Hrel & _).
  pose proof (keeps_contain_data_needed same_convo E t
                (PyStr.remove_char PyStr.dq generated) s3) as K3.
  rewrite Hrel in K3.
  simpl in K0, K1, K3, K5.
  assert (Hm3 : PyList.index (convo s3) (-1) = Some m).
  { rewrite <- Hm. f_equal. congruence. }
  rewrite (contain_data_needed_run E t _ s3 Hm3) in Hrel.
  injection Hrel as Hv Hst.
  apply verdict_true in Hv. destruct Hv as (reply & Hreply & Htrue).
  exists m, generated, s0, rs, s1, c, s2, s3, reply.
  cbv zeta. repeat split; try assumption; try reflexivity.
  - apply Hincl. exact Hin.
  - symmetry. exact Hst.
Qed.

Lemma ai_search_found_witness :
  let E := fixed_world "True" three_blocks "page" in
  let st := asked "who won?" in
  let st' := snd (ai_search E st) in
  ai_search E st = (Ok (Some "page"), st') /\
  exists m generated s0 rs s1 c s2 s3 reply,
    PyList.index (convo st) (-1) = Some m /\
    query_generator E st = (Ok generated, s0) /\
    let q := PyStr.remove_char PyStr.dq generated in
    search_duckduckgo E q s0 = (Ok rs, s1) /\
    In c rs /\
    scrape_page E (link c) s2 = (Ok (Some "page"), s3) /\
    chat E (length (trace s3)) (validation_request "page" (content m) q) = Some reply /\
    says_true reply /\
    st' = calls s3 [Chat (validation_request "page" (content m) q)].
Proof.
  intros E st st'.
  assert (H : ai_search E st = (Ok (Some "page"), st')) by reflexivity.
  split; [exact H|].
  exact (@ai_search_found E st st' "page" H).
Defined.

(** ** Failures never reach the loop *)

(** X18.  The body of the loop never raises: whatever the model and the
    network answer, and whatever the line, a turn ends normally, so the
    [except Exception] of [main] is not reached by a failed call. *)
Theorem turn_body_returns (E : env) (prompt : string) (st : state) :
  turn_body E prompt st = (Ok tt, turn E prompt st).
Proof.
  assert (Hfst : fst (turn_body E prompt st) = Ok tt).
  { destruct (PyStr.is_empty (PyStr.strip prompt)) eqn:Hs.
    { unfold turn_body. rewrite Hs. reflexivity. }
    destruct (check_after_append E (convo st) (trace st) prompt) as (b & Hcheck).
    destruct b.
    - set (st1 := {| convo := convo st ++ [user prompt];
                     trace := trace st ++
                              [Chat [sys_msgs.should_search_decision_agent;
                                     user prompt]] |}).
      destruct (ai_search_returns E st1) as (r & st2 & Hrun & Hc & _).
      unfold turn_body. rewrite Hs.
      unfold bind at 1. unfold convo_append at 1. cbv beta iota.
      unfold bind at 1. unfold bind at 1. rewrite Hcheck.
      unfold bind at 1. fold st1. rewrite Hrun. unfold bind at 1.
      replace st2 with {| convo := convo st ++ [user prompt]; trace := trace st2 |}
        by (destruct st2; simpl in *; congruence).
      rewrite convo_pop_last. cbv zeta.
      unfold convo_append. cbn [convo trace].
      exact (f_equal fst (stream_run E _)).
    - unfold turn_body. rewrite Hs.
      unfold bind at 1. unfold convo_append at 1. cbv beta iota.
      unfold bind at 1. unfold bind at 1. rewrite Hcheck.
      cbn [ret]. exact (f_equal fst (stream_run E _)). }
  unfold turn. destruct (turn_body E prompt st) as [o s'].
  simpl in *. subst o. reflexivity.
Qed.
